(** * lab-assistant: the statistical comparison engine (src/math.js, output.js)

    A shallow embedding of [ratePValue], [calculateMean],
    [calculateStandardDeviation], [round] and [analyseResults] of
    src/math.js, together with the [verbose] helper of output.js, and the
    properties the specification states about them.

    Numbers.  A JavaScript number is an IEEE 754 binary64 value, and so is a
    [number] here: the primitive floating-point numbers of Rocq, whose
    operations round to nearest (ties to even), overflow to the infinities
    and know NaN and the two zeros, as the operations of JavaScript do.
    [Math.round] is defined on the binary representation of its argument.
    [Math.pow] is left to the engine by ECMAScript ("an
    implementation-approximated value"): it is a parameter, [Math_pow], of
    the functions that call it.

    Effects.  [analyseResults] prints, may end the process and may throw; it
    is a computation in the monad [js], which threads the state of the
    process: the module variable [options] of output.js, the lines written to
    the two console streams, and the calls made to the external [ttest]
    package.  That package is not part of the repository: the p-value of the
    test it builds is a parameter of the development. *)

From Stdlib Require Import ZArith QArith List String Bool Lia Floats.
Import ListNotations.

Close Scope Q_scope.
Set Warnings "-inexact-float".

(** ** JavaScript numbers *)

Definition number : Type := float.

Definition NaN : number := nan.
Definition Infinity : number := infinity.

(** [Number.isFinite] *)
Definition isFinite (x : number) : bool := is_finite x.

(** [Number.isNaN] *)
Definition Number_isNaN (x : number) : bool := is_nan x.

(** [x < y] *)
Definition lt (x y : number) : bool := (x <? y)%float.

(** [x > y] *)
Definition gt (x y : number) : bool := lt y x.

(** [x <= y] *)
Definition le (x y : number) : bool := (x <=? y)%float.

(** [x == y] on numbers: false on NaN, true on the two zeros. *)
Definition equal (x y : number) : bool := (x =? y)%float.

(** unary minus *)
Definition neg (x : number) : number := (- x)%float.

(** [x + y] *)
Definition add (x y : number) : number := (x + y)%float.

(** [x - y] *)
Definition sub (x y : number) : number := (x - y)%float.

(** [x * y] *)
Definition mul (x y : number) : number := (x * y)%float.

(** [x / y] *)
Definition div (x y : number) : number := (x / y)%float.

(** [Math.sqrt] *)
Definition Math_sqrt (x : number) : number := sqrt x.


(** The number of a whole number below 2^63 in magnitude; the conversion is
    exact below 2^53. *)
Definition of_integer (k : Z) : number :=
  let magnitude := of_uint63 (Uint63.of_Z (Z.abs k)) in
  if (k <? 0)%Z then neg magnitude else magnitude.

(** The whole number [(-1)^s * m]. *)
Definition signed (s : bool) (m : positive) : Z :=
  if s then Z.neg m else Z.pos m.

(** The whole number [floor (x + 1/2)] for the finite number
    [x = (-1)^s * m * 2^e] with [e < 0], computed without rounding: with
    [n = (-1)^s * m] it is [floor ((2 * n + 2^(-e)) / 2^(1 - e))], a shift to
    the right. *)
Definition nearest_up (s : bool) (m : positive) (e : Z) : Z :=
  Z.shiftr (2 * signed s m + Z.shiftl 1 (- e)) (1 - e).

(** [Math.round]: the nearest integer, a tie going to the integer that is
    closer to +Infinity (ECMA-262, Math.round).  A number without fraction
    bits, an infinity, a zero and NaN are returned as they are; a result of
    zero keeps the sign of the argument. *)
Definition Math_round (x : number) : number :=
  match Prim2SF x with
  | S754_finite s m e =>
      if (0 <=? e)%Z then x
      else
        let k := nearest_up s m e in
        if (k =? 0)%Z then (if s then neg_zero else zero) else of_integer k
  | _ => x
  end.

(** ** The process: console, module state, abrupt completion *)

(** A template literal: text with numbers substituted in. *)
Inductive piece : Type :=
| Text (s : string)
| Num (x : number).

Definition line : Type := list piece.

(** [{ alternative: "less" }], [{ alternative: "greater" }] *)
Inductive alternative : Type := Less | Greater.

(** The command-line options that output.js looks at. *)
Record outputOptions : Type := { verbose_flag : bool }.

Record process : Type := {
  options : option outputOptions;   (* [let options;] of output.js *)
  stdout : list line;               (* console.log, oldest first *)
  stderr : list line;               (* console.error, oldest first *)
  tests : list (list number * list number * alternative)
                                    (* calls of [ttest], oldest first *)
}.

Inductive completion (A : Type) : Type :=
| Normal (a : A)
| Exit (status : Z)          (* process.exit(status) *)
| Throw (error : string).    (* an uncaught exception *)
Arguments Normal {A} a.
Arguments Exit {A} status.
Arguments Throw {A} error.

Definition js (A : Type) : Type := process -> completion A * process.

Definition ret {A} (a : A) : js A := fun s => (Normal a, s).

Definition bind {A B} (m : js A) (k : A -> js B) : js B :=
  fun s =>
    match m s with
    | (Normal a, s') => k a s'
    | (Exit status, s') => (Exit status, s')
    | (Throw error, s') => (Throw error, s')
    end.

Declare Scope js_scope.
Delimit Scope js_scope with js.
Notation "x <- m ;; k" := (bind m (fun x => k))
  (at level 61, m at next level, right associativity) : js_scope.
Notation "m ;; k" := (bind m (fun _ => k))
  (at level 61, right associativity) : js_scope.
#[local] Open Scope js_scope.

Definition throw {A} (error : string) : js A := fun s => (Throw error, s).

Definition console_log (l : line) : js unit :=
  fun s => (Normal tt,
            {| options := options s; stdout := stdout s ++ [l];
               stderr := stderr s; tests := tests s |}).

Definition console_error (l : line) : js unit :=
  fun s => (Normal tt,
            {| options := options s; stdout := stdout s;
               stderr := stderr s ++ [l]; tests := tests s |}).

Definition process_exit {A} (status : Z) : js A := fun s => (Exit status, s).

(** ** output.js *)

(** [function verbose(...args) { if (!options || options.verbose) ... }] *)
Definition verbose (l : line) : js unit :=
  fun s =>
    match options s with
    | None => console_log l s
    | Some o => if verbose_flag o then console_log l s else (Normal tt, s)
    end.

Definition setOutputOptions (opt : outputOptions) : js unit :=
  fun s => (Normal tt,
            {| options := Some opt; stdout := stdout s;
               stderr := stderr s; tests := tests s |}).

(** ** math.js: descriptive statistics *)

Definition BASE_SIGNIFICANCE : number := 0.05%float.

Definition ratePValue (pValue : number) : string :=
  if gt pValue BASE_SIGNIFICANCE then "Not significant"%string
  else if gt pValue 0.01%float then "Significant"%string
       else "Very significant"%string.

(** [values.length] *)
Definition length_of (values : list number) : number :=
  of_integer (Z.of_nat (List.length values)).

(** [values.reduce(f)]: the first element starts the accumulation; an empty
    array is a TypeError. *)
Definition reduce (f : number -> number -> number) (values : list number)
  : js number :=
  match values with
  | [] => throw "TypeError: Reduce of empty array with no initial value"
  | first :: rest => ret (fold_left f rest first)
  end.

(** [values.reduce(f, initial)] *)
Definition reduce_from (f : number -> number -> number)
  (values : list number) (initial : number) : number :=
  fold_left f values initial.

Definition calculateMean (values : list number) : js number :=
  total <- reduce (fun sum value => add sum value) values ;;
  ret (div total (length_of values)).

(** The local variables of [analyseResults] once the hypothesis is chosen
    (math.js, lines 77 to 92). *)
Record verdict : Type := {
  oldMean : number;
  newMean : number;
  direction : Z;
  pValue : number
}.

Definition newline : string := String (Ascii.ascii_of_nat 10) EmptyString.

Section Analysis.

(** [Math.pow] of the engine that runs the tool. *)
Variable Math_pow : number -> number -> number.

(** [mean = null] is the omitted second argument. *)
Definition calculateStandardDeviation (values : list number)
  (mean : option number) : js number :=
  mean <- match mean with
          | Some m => ret m
          | None => calculateMean values
          end ;;
  let variance :=
    div (reduce_from
           (fun sum value => add sum (Math_pow (sub value mean) 2%float))
           values 0%float)
        (length_of values) in
  ret (Math_sqrt variance).

(** [precision = 2] is the omitted second argument. *)
Definition round (value : number) (precision : option number) : number :=
  let precision := match precision with Some p => p | None => 2%float end in
  let power := Math_pow 10%float precision in
  div (Math_round (mul value power)) power.

(** ** math.js: [analyseResults] *)

(** [ttest(oldSet, newSet, { alternative }).pValue()] of the external
    package. *)
Variable ttest : list number -> list number -> alternative -> number.

(** A call of the package, recorded in the process. *)
Definition run_ttest (oldSet newSet : list number) (alt : alternative)
  : js number :=
  fun s => (Normal (ttest oldSet newSet alt),
            {| options := options s; stdout := stdout s;
               stderr := stderr s;
               tests := tests s ++ [(oldSet, newSet, alt)] |}).

(** Lines 77 to 92: the means, the direction and the p-value. *)
Definition chooseHypothesis (oldSet newSet : list number) : js verdict :=
  oldMean <- calculateMean oldSet ;;
  newMean <- calculateMean newSet ;;
  if lt oldMean newMean then
    pValue <- run_ttest oldSet newSet Less ;;
    ret {| oldMean := oldMean; newMean := newMean;
           direction := -1; pValue := pValue |}
  else if gt oldMean newMean then
    pValue <- run_ttest oldSet newSet Greater ;;
    ret {| oldMean := oldMean; newMean := newMean;
           direction := 1; pValue := pValue |}
  else
    ret {| oldMean := oldMean; newMean := newMean;
           direction := 0; pValue := 0%float |}.

(** Lines 94 to 145: the NaN guard and the report. *)
Definition report (v : verdict) : js unit :=
  let oldMean := oldMean v in
  let newMean := newMean v in
  let direction := direction v in
  let pValue := pValue v in
  let directionText :=
    if (direction =? 1)%Z then "FASTER"%string else "SLOWER"%string in
  (if Number_isNaN pValue then
     console_error [Text "Error: p-value is NaN."] ;;
     process_exit (-1)
   else ret tt) ;;
  (if negb (direction =? 0)%Z then
     verbose [Text "Active hypothesis: new version is ";
              Text directionText; Text " than old version."] ;;
     verbose [Text "Statistical significance: "; Text (ratePValue pValue);
              Text " (p-value = "; Num pValue; Text (")." ++ newline)]
   else ret tt) ;;
  if (direction =? 0)%Z then
    console_log
      [Text "There appears to be no significant difference between both versions."]
  else if gt pValue BASE_SIGNIFICANCE then
    console_log
      [Text "There appears to be no significant difference between both versions."] ;;
    console_log
      [Text "If you are seeing a high degree of variability in your results, consider"] ;;
    console_log [Text "taking more samples or increasing system stability."]
  else
    console_log [Text "The new version appears to be "; Text directionText;
                 Text " than the old version."] ;;
    if (direction =? 1)%Z then
      console_log
        [Text "The new version appears to be ";
         Num (round (mul (sub 1%float (div newMean oldMean)) 100%float) None);
         Text "% faster "; Text "(takes ";
         Num (round (mul (div newMean oldMean) 100%float) None);
         Text "% of the time of the old version)."]
    else
      console_log
        [Text "The new version appears to be ";
         Num (round (mul (sub (div newMean oldMean) 1%float) 100%float) None);
         Text "% slower "; Text "(takes ";
         Num (round (mul (div newMean oldMean) 100%float) None);
         Text "% of the time of the old version)."].

Definition analyseResults (oldSet newSet : list number) : js unit :=
  v <- chooseHypothesis oldSet newSet ;;
  report v.

End Analysis.

(** A process that has written nothing yet. *)
Definition start (opts : option outputOptions) : process :=
  {| options := opts; stdout := []; stderr := []; tests := [] |}.

(** ** The specification's vocabulary *)

(** The real number that a finite number stands for, as a fraction; the two
    zeros stand for 0.  (The infinities and NaN stand for no real number:
    the value 0 given here is never used.) *)
Definition exact (x : number) : Q :=
  match Prim2SF x with
  | S754_finite s m e =>
      if (0 <=? e)%Z then inject_Z (signed s m * 2 ^ e)
      else Qmake (signed s m) (Z.to_pos (2 ^ (- e)))
  | _ => 0%Q
  end.

(** The mantissa of the number of a positive whole number below 2^53: its
    binary digits, moved left to fill 53 bits. *)
Definition normal (p : positive) : positive :=
  match (53 - Z.pos (digits2_pos p))%Z with
  | Z.pos n => Pos.iter xO p n
  | _ => p
  end.

(** The sum of a list of fractions. *)
Definition Qsum (qs : list Q) : Q := fold_right Qplus 0%Q qs.

(** The arithmetic average of the values, without rounding. *)
Definition exact_mean (values : list number) : Q :=
  (Qsum (map exact values) / inject_Z (Z.of_nat (List.length values)))%Q.

(** The sum of the squared deviations from the average, without rounding. *)
Definition exact_squares (values : list number) : Q :=
  Qsum (map (fun x => ((exact x - exact_mean values) ^ 2)%Q) values).

(** [a + b + ...], from 0, in the order of the values. *)
Definition sum (values : list number) : number :=
  fold_left add values 0%float.

(** The population standard deviation in the spec's words,
    sqrt(sum((x - mean)^2) / N), each operation being the one of
    JavaScript. *)
Definition population_sd (Math_pow : number -> number -> number)
  (values : list number) (mean : number) : number :=
  Math_sqrt
    (div (sum (map (fun x => Math_pow (sub x mean) 2%float) values))
         (length_of values)).

(** Rounding to the nearest integer, an exact half going away from zero:
    [Math_round] but for the tie of a negative number. *)
Definition nearest_away (x : number) : number :=
  match Prim2SF x with
  | S754_finite s m e =>
      if (0 <=? e)%Z then x
      else
        let k := nearest_up false m e in
        if (k =? 0)%Z then (if s then neg_zero else zero)
        else of_integer (if s then - k else k)
  | _ => x
  end.

(** ** The process after a run, and the report by parts *)

(** The process after [ls] more lines on the standard output. *)
Definition printed (s : process) (ls : list line) : process :=
  {| options := options s; stdout := stdout s ++ ls;
     stderr := stderr s; tests := tests s |}.

(** The process after [ls] more lines on the standard error. *)
Definition complained (s : process) (ls : list line) : process :=
  {| options := options s; stdout := stdout s;
     stderr := stderr s ++ ls; tests := tests s |}.

(** The process after one more call of the test package. *)
Definition logged (s : process)
  (call : list number * list number * alternative) : process :=
  {| options := options s; stdout := stdout s;
     stderr := stderr s; tests := tests s ++ [call] |}.

(** The same process under other command-line options. *)
Definition with_options (o : option outputOptions) (s : process) : process :=
  {| options := o; stdout := stdout s; stderr := stderr s; tests := tests s |}.

(** Whether [verbose] prints: no options set yet, or the verbose flag. *)
Definition speaks (o : option outputOptions) : bool :=
  match o with
  | None => true
  | Some o => verbose_flag o
  end.

Definition direction_word (direction : Z) : string :=
  if (direction =? 1)%Z then "FASTER"%string else "SLOWER"%string.

(** The two lines of the verbose mode: the hypothesis and the significance
    rating with the p-value. *)
Definition verbose_lines (v : verdict) : list line :=
  [ [Text "Active hypothesis: new version is ";
     Text (direction_word (direction v)); Text " than old version."];
    [Text "Statistical significance: "; Text (ratePValue (pValue v));
     Text " (p-value = "; Num (pValue v); Text (")." ++ newline)] ].

Definition no_difference_line : line :=
  [Text "There appears to be no significant difference between both versions."].

Definition advice_lines : list line :=
  [ [Text "If you are seeing a high degree of variability in your results, consider"];
    [Text "taking more samples or increasing system stability."] ].

Definition direction_line (v : verdict) : line :=
  [Text "The new version appears to be "; Text (direction_word (direction v));
   Text " than the old version."].

(** The line with the two percentage figures; [word] is faster or slower. *)
Definition percent_line (change : number) (word : string) (ratio : number)
  : line :=
  [Text "The new version appears to be "; Num change;
   Text ("% " ++ word ++ " "); Text "(takes "; Num ratio;
   Text "% of the time of the old version)."].

(** The final lines of the report, printed whatever the verbose flag. *)
Definition final_lines (Math_pow : number -> number -> number) (v : verdict)
  : list line :=
  if (direction v =? 0)%Z then [no_difference_line]
  else if gt (pValue v) BASE_SIGNIFICANCE then no_difference_line :: advice_lines
  else
    [ direction_line v;
      if (direction v =? 1)%Z then
        percent_line
          (round Math_pow
             (mul (sub 1%float (div (newMean v) (oldMean v))) 100%float) None)
          "faster"
          (round Math_pow (mul (div (newMean v) (oldMean v)) 100%float) None)
      else
        percent_line
          (round Math_pow
             (mul (sub (div (newMean v) (oldMean v)) 1%float) 100%float) None)
          "slower"
          (round Math_pow (mul (div (newMean v) (oldMean v)) 100%float) None) ].

(** Whether a line shows a number. *)
Definition shows_number (l : line) : bool :=
  existsb (fun p => match p with Num _ => true | Text _ => false end) l.

(** ** Stand-ins for what the repository does not hold *)

(** A stand-in for the test package that answers the same p-value whatever
    it is asked; it serves to run [analyseResults] on concrete inputs. *)
Definition fixed_ttest (p : number)
  : list number -> list number -> alternative -> number :=
  fun _ _ _ => p.

(** The whole number that a number is, if it is one. *)
Definition whole (x : number) : option Z :=
  match Prim2SF x with
  | S754_zero _ => Some 0%Z
  | S754_finite s m e =>
      if (0 <=? e)%Z then Some (signed s m * 2 ^ e)%Z
      else if (Z.pos m mod 2 ^ (- e) =? 0)%Z
           then Some (signed s m / 2 ^ (- e))%Z
           else None
  | _ => None
  end.

(** [base * base * ... * base], [n] factors, from 1. *)
Definition product (base : number) (n : positive) : number :=
  Pos.iter (fun p => mul p base) 1%float n.

(** One [Math.pow] that an engine may have, on whole exponents: the product
    of the factors, which is exact whenever the power is a number, as for
    Math.pow(10, 2) = 100; the square is the rounded product.  It serves to
    run the code on concrete inputs; the tool passes the exponents 2 and
    4 only. *)
Definition pow_by_product (base exponent : number) : number :=
  match whole exponent with
  | Some Z0 => 1%float
  | Some (Zpos n) => product base n
  | Some (Zneg n) => div 1%float (product base n)
  | None => NaN
  end.

(** ** The claims that the code does not meet, as the spec words them *)

(** The end of the claim C1 as the spec words it: the direction is NONE only
    when the two means are the same number, bit for bit. *)
Definition none_only_when_identical : Prop :=
  forall (ttest : list number -> list number -> alternative -> number)
         (oldSet newSet : list number) (s s' : process) (om nm : number)
         (v : verdict),
    calculateMean oldSet s = (Normal om, s) ->
    calculateMean newSet s = (Normal nm, s) ->
    chooseHypothesis ttest oldSet newSet s = (Normal v, s') ->
    direction v = 0%Z -> om = nm.

(** The claim C7 as the spec words it: on finite values the result is the
    population standard deviation of the values, a real number d >= 0 with
    d^2 * N = sum((x - mean)^2). *)
Definition is_population_sd (Math_pow : number -> number -> number) : Prop :=
  forall (values : list number) (s : process),
    values <> [] -> forallb isFinite values = true ->
    exists d,
      calculateStandardDeviation Math_pow values None s = (Normal d, s) /\
      (exact d ^ 2 * inject_Z (Z.of_nat (List.length values))
       == exact_squares values)%Q.

(** The claim C8 as the spec words it: [round] rounds the scaled value to
    the nearest integer, an exact half going away from zero. *)
Definition round_is_half_away (Math_pow : number -> number -> number) : Prop :=
  forall (x : number) (p : option number),
    isFinite x = true ->
    let power :=
      Math_pow 10%float (match p with Some q => q | None => 2%float end) in
    round Math_pow x p = div (nearest_away (mul x power)) power.


(** The scenario of the spec: zero variance, large separation. *)
Definition all_100 : list number := [100; 100; 100; 100; 100]%float.
Definition all_80 : list number := [80; 80; 80; 80; 80]%float.

(** The options of a run without [--verbose]. *)
Definition quiet : option outputOptions := Some {| verbose_flag := false |}.



(** * The rest of the tool *)

(** ** web-vitals.js: the observers injected into the page

    [calculateLCP] and [calculateCLS] run in the page before its scripts.
    Each sets a variable of [window], starts a PerformanceObserver and
    listens to "visibilitychange".  What the browser does is modelled by the
    events it delivers to the page, one after the other: a list of entries
    for an observer that is still connected, or a change of visibility. *)

(** A "largest-contentful-paint" entry, as far as the callback reads it. *)
Record lcpEntry : Type := { renderTime : number; loadTime : number }.

(** A "layout-shift" entry, as far as the callback reads it. *)
Record layoutShift : Type := { hadRecentInput : bool; value : number }.

Inductive visibilityState : Type := visible | hidden.

Inductive pageEvent : Type :=
| LargestContentfulPaint (entries : list lcpEntry)
| LayoutShift (entries : list layoutShift)
| VisibilityChange (state : visibilityState).

Record window : Type := {
  largestContentfulPaint : number;
  cumulativeLayoutShiftScore : number;
  lcpObserver : bool;            (* connected *)
  clsObserver : bool;            (* connected *)
  pageConsole : list line        (* console.log in the page *)
}.

(** [a || b] on numbers: 0, -0 and NaN are falsy. *)
Definition or_else (a b : number) : number :=
  if Number_isNaN a || equal a 0%float then b else a.

(** [calculateLCP], the set-up: lines 4 and 12. *)
Definition calculateLCP (w : window) : window :=
  {| largestContentfulPaint := 0%float;
     cumulativeLayoutShiftScore := cumulativeLayoutShiftScore w;
     lcpObserver := true;
     clsObserver := clsObserver w;
     pageConsole := pageConsole w |}.

(** The observer callback of [calculateLCP], lines 6 to 10.  On an empty
    list [lastEntry] is undefined and the callback ends in a TypeError, which
    leaves [window] as it was. *)
Definition onLargestContentfulPaint (entries : list lcpEntry) (w : window)
  : window :=
  match last (map Some entries) None with
  | None => w
  | Some lastEntry =>
      {| largestContentfulPaint :=
           or_else (renderTime lastEntry) (loadTime lastEntry);
         cumulativeLayoutShiftScore := cumulativeLayoutShiftScore w;
         lcpObserver := lcpObserver w;
         clsObserver := clsObserver w;
         pageConsole := pageConsole w |}
  end.

(** [calculateCLS], the set-up: lines 23 and 34. *)
Definition calculateCLS (w : window) : window :=
  {| largestContentfulPaint := largestContentfulPaint w;
     cumulativeLayoutShiftScore := 0%float;
     lcpObserver := lcpObserver w;
     clsObserver := true;
     pageConsole := pageConsole w |}.

(** The body of the loop of the callback of [calculateCLS], lines 27 to
    30. *)
Definition onLayoutShiftEntry (w : window) (entry : layoutShift) : window :=
  if negb (hadRecentInput entry) then
    {| largestContentfulPaint := largestContentfulPaint w;
       cumulativeLayoutShiftScore :=
         add (cumulativeLayoutShiftScore w) (value entry);
       lcpObserver := lcpObserver w;
       clsObserver := clsObserver w;
       pageConsole :=
         pageConsole w
         ++ [[Text "New observer entry for cls: "; Num (value entry)]] |}
  else w.

(** The observer callback of [calculateCLS], lines 25 to 32. *)
Definition onLayoutShift (entries : list layoutShift) (w : window) : window :=
  fold_left onLayoutShiftEntry entries w.

(** The two "visibilitychange" listeners, lines 14 to 19 and 36 to 41: both
    observers are disconnected when the page gets hidden; the records that
    [takeRecords] returns are dropped. *)
Definition onVisibilityChange (state : visibilityState) (w : window)
  : window :=
  match state with
  | hidden =>
      {| largestContentfulPaint := largestContentfulPaint w;
         cumulativeLayoutShiftScore := cumulativeLayoutShiftScore w;
         lcpObserver := false;
         clsObserver := false;
         pageConsole := pageConsole w |}
  | visible => w
  end.

(** The browser delivers one event: entries go to a connected observer
    only. *)
Definition deliver (w : window) (e : pageEvent) : window :=
  match e with
  | LargestContentfulPaint entries =>
      if lcpObserver w then onLargestContentfulPaint entries w else w
  | LayoutShift entries =>
      if clsObserver w then onLayoutShift entries w else w
  | VisibilityChange state => onVisibilityChange state w
  end.

(** A page on which both scripts were evaluated, after the events [es]. *)
Definition page_after (w : window) (es : list pageEvent) : window :=
  fold_left deliver es (calculateCLS (calculateLCP w)).

(** The events up to the first time the page gets hidden. *)
Fixpoint while_visible (es : list pageEvent) : list pageEvent :=
  match es with
  | [] => []
  | VisibilityChange hidden :: _ => []
  | e :: rest => e :: while_visible rest
  end.

(** All the layout shifts of a list of events, in order. *)
Fixpoint layout_shifts (es : list pageEvent) : list layoutShift :=
  match es with
  | [] => []
  | LayoutShift entries :: rest => entries ++ layout_shifts rest
  | _ :: rest => layout_shifts rest
  end.

(** All the largest-contentful-paint entries of a list of events, in
    order. *)
Fixpoint lcp_entries (es : list pageEvent) : list lcpEntry :=
  match es with
  | [] => []
  | LargestContentfulPaint entries :: rest => entries ++ lcp_entries rest
  | _ :: rest => lcp_entries rest
  end.

(** The layout shifts that count: those without recent input. *)
Definition counted (shifts : list layoutShift) : list layoutShift :=
  filter (fun entry => negb (hadRecentInput entry)) shifts.

(** ** The main file: the browser and the terminal

    The main file drives a browser through Puppeteer, or Lighthouse, and
    talks to the terminal.  What they answer is not the tool's code: a visit
    of a page is a parameter, [browser], which may depend on all that
    happened before; launching and configuring the browser (headless mode,
    CPU and network throttling, viewport, cache) is left to it.  The steps
    the tool takes are recorded, in order, in a history. *)

(** A property value: undefined, or a number. *)
Definition ToNumber (v : option number) : number :=
  match v with
  | Some x => x
  | None => NaN
  end.

(** An object with number-valued properties, in insertion order. *)
Definition object : Type := list (string * option number).

(** [o[key]]: undefined when [o] has no such property. *)
Fixpoint get (o : object) (key : string) : option number :=
  match o with
  | [] => None
  | (k, v) :: rest => if String.eqb k key then v else get rest key
  end.

(** [{ ...o, [key]: v }] *)
Fixpoint set_property (o : object) (key : string) (v : option number)
  : object :=
  match o with
  | [] => [(key, v)]
  | (k, old) :: rest =>
      if String.eqb k key then (k, v) :: rest
      else (k, old) :: set_property rest key v
  end.

(** [performance.getEntriesByType("navigation")[0]], the properties read. *)
Record navigationTiming : Type := {
  responseStart : option number;
  domContentLoadedEventEnd : option number;
  loadEventEnd : option number
}.

(** A "paint" performance entry. *)
Record paintEntry : Type := { name : string; startTime : number }.

(** What a page that was loaded directly shows: its navigation entry, its
    paint entries, and the events delivered to the two observers until the
    page is read. *)
Record loadedPage : Type := {
  navigation : navigationTiming;
  paintEntries : list paintEntry;
  pageEvents : list pageEvent
}.

(** An item of [lhr.audits["metrics"].details.items]. *)
Record metricsItem : Type := {
  has_interactive : bool;        (* "interactive" in item *)
  observedFirstPaint : option number;
  observedDomContentLoaded : option number;
  observedLoad : option number
}.

(** The Lighthouse result, as far as it is read: the numericValue of six
    audits and the items of the "metrics" audit. *)
Record lighthouseResult : Type := {
  cumulative_layout_shift : option number;
  first_contentful_paint : option number;
  largest_contentful_paint : option number;
  total_blocking_time : option number;
  interactive : option number;
  server_response_time : option number;
  metrics_items : list metricsItem
}.

(** A visit of a page: the navigation fails with an error, or the page is
    there, for a direct reading and for Lighthouse. *)
Inductive visit : Type :=
| Unreachable (e : string)
| Reached (page : loadedPage) (result : lighthouseResult).

Inductive event : Type :=
| Question                              (* rl.question, in waitForInput *)
| BarStart (total startValue : Z)       (* progress.start *)
| BarUpdate (current : Z)               (* progress.update *)
| BarStop                               (* progress.stop *)
| Visit (url : string) (measured : bool).
                                        (* a browser launched, a page loaded *)

Record world : Type := {
  node : process;
  history : list event
}.

Definition task (A : Type) : Type := world -> completion A * world.

Definition task_ret {A} (a : A) : task A := fun w => (Normal a, w).

Definition task_bind {A B} (m : task A) (k : A -> task B) : task B :=
  fun w =>
    match m w with
    | (Normal a, w') => k a w'
    | (Exit status, w') => (Exit status, w')
    | (Throw error, w') => (Throw error, w')
    end.

(** A computation of math.js or output.js, run by the main file. *)
Definition lift {A} (m : js A) : task A :=
  fun w =>
    match m (node w) with
    | (c, p) => (c, {| node := p; history := history w |})
    end.

Definition happens (e : event) : task unit :=
  fun w => (Normal tt, {| node := node w; history := history w ++ [e] |}).

Declare Scope task_scope.
Delimit Scope task_scope with task.
Notation "x <- m ;; k" := (task_bind m (fun x => k))
  (at level 61, m at next level, right associativity) : task_scope.
Notation "m ;; k" := (task_bind m (fun _ => k))
  (at level 61, right associativity) : task_scope.

(** The command-line options that the tool reads ([headless] and
    [cpu_slowdown] only configure the browser). *)
Record argv : Type := {
  url : string;
  url2 : option string;
  verbose_option : bool;       (* options.verbose *)
  lighthouse : bool;
  repeat : Z;
  throwaway : Z;
  metric : string
}.

(** Whether [options.url2] is truthy: given, and not the empty string. *)
Definition given (s : option string) : bool :=
  match s with
  | Some s => negb (String.eqb s "")
  | None => false
  end.

(** Whether a number is -0. *)
Definition is_negative_zero (a : number) : bool :=
  equal a 0%float && get_sign a.

(** [Math.max(...values)]: -Infinity without arguments, NaN when an
    argument is NaN; +0 is above -0. *)
Definition max2 (a b : number) : number :=
  if Number_isNaN a || Number_isNaN b then NaN
  else if lt a b then b
  else if lt b a then a
  else if is_negative_zero a then b else a.

Definition Math_max (values : list number) : number :=
  fold_left max2 values (neg Infinity).

(** [Math.min(...values)]: Infinity without arguments, NaN when an argument
    is NaN; -0 is below +0. *)
Definition min2 (a b : number) : number :=
  if Number_isNaN a || Number_isNaN b then NaN
  else if lt b a then b
  else if lt a b then a
  else if is_negative_zero a then a else b.

Definition Math_min (values : list number) : number :=
  fold_left min2 values Infinity.

(** A value of the array that [verbose] prints. *)
Definition shown (v : option number) : piece :=
  match v with
  | Some x => Num x
  | None => Text "undefined"
  end.

(** [handleFetchError]: four lines on the standard error, then the process
    ends; it never returns. *)
Definition handleFetchError {A} (e : string) : js A :=
  (console_error [Text newline] ;;
   console_error [Text "Error fetching page."] ;;
   console_error [Text e] ;;
   console_error [Text (newline ++ "Exiting.")] ;;
   process_exit (-1))%js.

(** The object that the [reduce] of [loadAndMeasureDirectly] builds from
    the paint entries. *)
Definition paint_object (entries : list paintEntry) : object :=
  fold_left
    (fun obj entry => set_property obj (name entry) (Some (startTime entry)))
    entries [].

(** A document on which no script ran yet. *)
Definition new_document : window :=
  {| largestContentfulPaint := NaN; cumulativeLayoutShiftScore := NaN;
     lcpObserver := false; clsObserver := false; pageConsole := [] |}.

(** The object that [loadAndMeasureDirectly] returns. *)
Definition direct_timings (page : loadedPage) : object :=
  let navigation := navigation page in
  let paint := paint_object (paintEntries page) in
  let w := page_after new_document (pageEvents page) in
  let lcp := largestContentfulPaint w in
  let cls := cumulativeLayoutShiftScore w in
  [ ("ttfb"%string, responseStart navigation);
    ("dcl"%string, domContentLoadedEventEnd navigation);
    ("load"%string, loadEventEnd navigation);
    ("fp"%string, get paint "first-paint");
    ("fcp"%string, get paint "first-contentful-paint");
    ("lcp"%string, Some lcp);
    ("cls"%string, Some cls) ].

(** The object [metrics] of [loadAndMeasureWithLighthouse]. *)
Definition lighthouse_timings (result : lighthouseResult)
  (metricsDetails : metricsItem) : object :=
  [ ("cls"%string, cumulative_layout_shift result);
    ("fcp"%string, first_contentful_paint result);
    ("lcp"%string, largest_contentful_paint result);
    ("tbt"%string, total_blocking_time result);
    ("tti"%string, interactive result);
    ("ttfb"%string, server_response_time result);
    ("fp"%string, observedFirstPaint metricsDetails);
    ("dcl"%string, observedDomContentLoaded metricsDetails);
    ("load"%string, observedLoad metricsDetails) ].

(** [function calculateMetric(timings, metric) { return timings[metric]; }] *)
Definition calculateMetric (timings : object) (metric : string)
  : option number :=
  get timings metric.

Section Tool.

(** [Math.pow] of the engine that runs the tool. *)
Variable Math_pow : number -> number -> number.

(** The visit of [url] after the history so far. *)
Variable browser : list event -> string -> visit.
Variable ttest : list number -> list number -> alternative -> number.

(** [options], once yargs has parsed the command line. *)
Variable opts : argv.

#[local] Open Scope task_scope.

Definition waitForInput : task unit := happens Question.

(** A browser is launched and [url] is loaded in a new page. *)
Definition goto (url : string) (measured : bool) : task visit :=
  fun w =>
    (Normal (browser (history w) url),
     {| node := node w; history := history w ++ [Visit url measured] |}).

Definition load (url : string) : task unit :=
  v <- goto url false ;;
  match v with
  | Unreachable e => lift (handleFetchError e)
  | Reached _ _ => task_ret tt
  end.

Definition loadAndMeasureWithLighthouse (url : string) : task object :=
  v <- goto url true ;;
  match v with
  | Unreachable e => lift (handleFetchError e)
  | Reached _ result =>
      match find has_interactive (metrics_items result) with
      | None =>
          lift (throw
            "TypeError: Cannot read properties of undefined (reading 'observedFirstPaint')")
      | Some metricsDetails =>
          task_ret (lighthouse_timings result metricsDetails)
      end
  end.

Definition loadAndMeasureDirectly (url : string) : task object :=
  v <- goto url true ;;
  match v with
  | Unreachable e => lift (handleFetchError e)
  | Reached page _ => task_ret (direct_timings page)
  end.

Definition loadAndMeasure (url : string) : task object :=
  if lighthouse opts then loadAndMeasureWithLighthouse url
  else loadAndMeasureDirectly url.

Definition formatMetric (value : number) : line :=
  if String.eqb (metric opts) "cls"
  then [Num (round Math_pow value (Some 4%float))]
  else [Num (round Math_pow value None); Text "ms"].

(** [for (let i = 0; i < options.throwaway; i++) { await load(url); }],
    with [count] iterations to go. *)
Fixpoint throwaway_loads (count : nat) (url : string) : task unit :=
  match count with
  | O => task_ret tt
  | S count' => load url ;; throwaway_loads count' url
  end.

(** The measurement loop, at index [i] with [count] iterations to go; the
    array [timingSet] grows by one element in each. *)
Fixpoint measurements (count : nat) (i : Z) (url : string)
  (timingSet : list object) : task (list object) :=
  match count with
  | O => task_ret timingSet
  | S count' =>
      timings <- loadAndMeasure url ;;
      let timingSet := (timingSet ++ [timings])%list in
      happens (BarUpdate (i + 1)) ;;
      measurements count' (i + 1) url timingSet
  end.

(** [performMeasurementSet]: the result is the array [timingSet] after the
    loop, and the values returned.  What follows the loop only computes and
    prints. *)
Definition performMeasurementSet (timingSet : list object)
  (versionString url : string) : task (list object * list (option number)) :=
  happens (BarStart (repeat opts) 0) ;;
  throwaway_loads (Z.to_nat (throwaway opts)) url ;;
  timingSet <- measurements (Z.to_nat (repeat opts)) 0 url timingSet ;;
  happens BarStop ;;
  lift
    (let values :=
       map (fun timings => calculateMetric timings (metric opts)) timingSet in
     mean <- calculateMean (map ToNumber values) ;;
     console_log [] ;;
     console_log [Text "Test results for "; Text versionString;
                  Text " version ("; Text url; Text ")"] ;;
     verbose (Text "Values: " :: map shown values) ;;
     console_log (Text "Mean: " :: formatMetric mean) ;;
     deviation <-
       calculateStandardDeviation Math_pow (map ToNumber values) (Some mean) ;;
     console_log (Text "Standard deviation: " :: formatMetric deviation) ;;
     console_log (Text "Slowest measurement: "
                  :: formatMetric (Math_max (map ToNumber values))) ;;
     console_log (Text "Fastest measurement: "
                  :: formatMetric (Math_min (map ToNumber values))) ;;
     console_log [] ;;
     ret (timingSet, values))%js.

(** The main method, after [options] is set. *)
Definition main : task unit :=
  let oldUrl := url opts in
  let newUrl :=
    if given (url2 opts)
    then match url2 opts with Some u => u | None => url opts end
    else url opts in
  (if negb (lighthouse opts)
      && (String.eqb (metric opts) "tti" || String.eqb (metric opts) "tbt")
   then
     lift (console_error
             [Text "Error: metric only measurable via Lighthouse. Use the `-l` option."]) ;;
     lift (process_exit (-1))
   else task_ret tt) ;;
  lift (setOutputOptions {| verbose_flag := verbose_option opts |}) ;;
  (if negb (given (url2 opts)) then
     lift (console_log
             [Text "Press <Enter> when ready for taking measurements on the OLD version."]) ;;
     waitForInput
   else task_ret tt) ;;
  old <- performMeasurementSet [] "old" oldUrl ;;
  let oldValues := snd old in
  lift (console_log []) ;;
  (if negb (given (url2 opts)) then
     lift (console_log
             [Text "Press <Enter> when ready for taking measurements on the NEW version."]) ;;
     waitForInput
   else task_ret tt) ;;
  new <- performMeasurementSet [] "new" newUrl ;;
  let newValues := snd new in
  lift (console_log []) ;;
  lift (analyseResults Math_pow ttest (map ToNumber oldValues)
          (map ToNumber newValues)) ;;
  lift (process_exit 0).

End Tool.

(** ** The main file, by parts *)

(** The four lines of [handleFetchError]. *)
Definition fetch_error_lines (e : string) : list line :=
  [ [Text newline]; [Text "Error fetching page."]; [Text e];
    [Text (newline ++ "Exiting.")] ].

(** The world after the events [es]. *)
Definition after (w : world) (es : list event) : world :=
  {| node := node w; history := history w ++ es |}.

(** The test at the head of the main method: the metric needs Lighthouse
    and Lighthouse is off. *)
Definition needs_lighthouse (opts : argv) : bool :=
  negb (lighthouse opts)
  && (String.eqb (metric opts) "tti" || String.eqb (metric opts) "tbt").

(** The choices of the [--metric] option. *)
Definition metric_choices : list string :=
  [ "ttfb"; "fp"; "fcp"; "dcl"; "load"; "lcp"; "cls"; "tti";
    "tbt" ]%string.

(** The events of one measurement set that meets no failure: the bar starts,
    the throwaway visits, then each measured visit followed by its update
    of the bar, and the bar stops. *)
Definition set_events (opts : argv) (u : string) : list event :=
  BarStart (repeat opts) 0
  :: List.repeat (Visit u false) (Z.to_nat (throwaway opts))
  ++ flat_map (fun k => [Visit u true; BarUpdate (Z.of_nat k)])
       (seq 1 (Z.to_nat (repeat opts)))
  ++ [BarStop].

(** The summary that [performMeasurementSet] prints, given the mean and the
    standard deviation it computed; [loud] tells whether [verbose]
    prints. *)
Definition summary_lines (Math_pow : number -> number -> number)
  (opts : argv) (loud : bool)
  (versionString url : string) (values : list (option number))
  (mean deviation : number) : list line :=
  [ [];
    [Text "Test results for "; Text versionString; Text " version (";
     Text url; Text ")"] ]
  ++ (if loud then [Text "Values: " :: map shown values] else [])
  ++ [ Text "Mean: " :: formatMetric Math_pow opts mean;
       Text "Standard deviation: " :: formatMetric Math_pow opts deviation;
       Text "Slowest measurement: "
       :: formatMetric Math_pow opts (Math_max (map ToNumber values));
       Text "Fastest measurement: "
       :: formatMetric Math_pow opts (Math_min (map ToNumber values));
       [] ].

(** A measurement set that ended early: through [handleFetchError], with
    its four lines and status -1, or by an exception, with nothing
    written. *)
Definition aborted {A} (w : world) (r : completion A * world) : Prop :=
  match fst r with
  | Normal _ => False
  | Exit status =>
      status = (-1)%Z /\
      exists e, node (snd r) = complained (node w) (fetch_error_lines e)
  | Throw _ => node (snd r) = node w
  end.

(** The URL of the new version: [options.url2 || options.url]. *)
Definition new_url (opts : argv) : string :=
  if given (url2 opts)
  then match url2 opts with Some u => u | None => url opts end
  else url opts.

(** A browser that always reaches the page, with what the chosen way of
    measuring needs. *)
Definition reliable (browser : list event -> string -> visit) (opts : argv)
  : Prop :=
  forall h u, exists page result,
    browser h u = Reached page result /\
    (lighthouse opts = true ->
     exists item, find has_interactive (metrics_items result) = Some item).

(** A browser that reaches every page and shows the same load time each
    time; it serves to run the tool on concrete inputs. *)
Definition steady_page (t : number) : loadedPage :=
  {| navigation := {| responseStart := Some t;
                      domContentLoadedEventEnd := Some t;
                      loadEventEnd := Some t |};
     paintEntries := [];
     pageEvents := [] |}.

Definition no_audit : lighthouseResult :=
  {| cumulative_layout_shift := None; first_contentful_paint := None;
     largest_contentful_paint := None; total_blocking_time := None;
     interactive := None; server_response_time := None;
     metrics_items := [] |}.

Definition steady_browser (t : number) : list event -> string -> visit :=
  fun _ _ => Reached (steady_page t) no_audit.

(** A browser that reaches no page. *)
Definition offline_browser : list event -> string -> visit :=
  fun _ _ => Unreachable "net::ERR_INTERNET_DISCONNECTED".

(** The default options, for one URL or two. *)
Definition default_options (u : string) (u2 : option string) : argv :=
  {| url := u; url2 := u2; verbose_option := false; lighthouse := false;
     repeat := 10; throwaway := 1; metric := "load" |}.

(** The world in which the tool starts. *)
Definition boot : world := {| node := start None; history := [] |}.

(** How a run stands with respect to the standard error: while it goes on,
    and when it ends with status 0 or by an exception, nothing was written
    there; it ends with status -1 only after writing there.  [returns] tells
    whether the run may return at all. *)
Definition ended {A} (returns : Prop) (w : world) (r : completion A * world)
  : Prop :=
  match fst r with
  | Normal _ => returns /\ stderr (node (snd r)) = stderr (node w)
  | Exit status =>
      (status = 0%Z /\ stderr (node (snd r)) = stderr (node w)) \/
      (status = (-1)%Z /\
       exists lines,
         lines <> [] /\ stderr (node (snd r)) = stderr (node w) ++ lines)
  | Throw _ => stderr (node (snd r)) = stderr (node w)
  end.

(** The events of the prompt, when only one URL is given. *)
Definition prompt_events (opts : argv) : list event :=
  if given (url2 opts) then [] else [Question].

(** Options that ask for Time To Interactive without Lighthouse. *)
Definition tti_directly : argv :=
  {| url := "http://a.test"; url2 := None; verbose_option := false;
     lighthouse := false; repeat := 10; throwaway := 1; metric := "tti" |}.
(** ** The order of the numbers

    The comparisons of two numbers are those of their binary representations
    ([SFcompare]); NaN compares with nothing. *)

Lemma SFcompare_antisym x y :
  SFcompare y x = option_map CompOpp (SFcompare x y).
Proof.
  destruct x as [sx | sx | | sx mx ex], y as [sy | sy | | sy my ey];
    try destruct sx; try destruct sy; try reflexivity.
  all: simpl; rewrite (Z.compare_antisym ey ex);
    destruct (ey ?= ex)%Z; simpl; try reflexivity;
    rewrite !Pos.compare_cont_spec, (Pos.compare_antisym my mx);
    simpl; now destruct (my ?= mx)%positive.
Qed.

Lemma SFcompare_refl x : x <> S754_nan -> SFcompare x x = Some Eq.
Proof.
  destruct x as [s | s | | s m e]; try easy; intros _.
  - now destruct s.
  - simpl. rewrite Z.compare_refl, Pos.compare_cont_spec, Pos.compare_refl.
    now destruct s.
Qed.

Lemma SFcompare_None x y :
  SFcompare x y = None <-> x = S754_nan \/ y = S754_nan.
Proof.
  destruct x as [sx | sx | | sx mx ex], y as [sy | sy | | sy my ey]; simpl;
    split; intros H; try discriminate; try tauto;
    destruct H; discriminate.
Qed.

(** The binary representations, but for NaN, are ordered by
    [SFcompare]: the order is transitive. *)
Lemma SFcompare_Lt_trans x y z :
  SFcompare x y = Some Lt -> SFcompare y z = Some Lt ->
  SFcompare x z = Some Lt.
Proof.
  destruct x as [sx | sx | | sx mx ex], y as [sy | sy | | sy my ey],
    z as [sz | sz | | sz mz ez];
    try destruct sx; try destruct sy; try destruct sz; simpl;
    try discriminate; try reflexivity;
    rewrite ?Pos.compare_cont_spec;
    repeat match goal with
      | |- context [(?a ?= ?b)%Z] => destruct (Z.compare_spec a b)
      | |- context [(?a ?= ?b)%positive] => destruct (Pos.compare_spec a b)
      end; simpl; try discriminate; try reflexivity; intros; lia.
Qed.

Lemma SFcompare_Lt_Eq_trans x y z :
  SFcompare x y = Some Lt -> SFcompare y z = Some Eq ->
  SFcompare x z = Some Lt.
Proof.
  destruct x as [sx | sx | | sx mx ex], y as [sy | sy | | sy my ey],
    z as [sz | sz | | sz mz ez];
    try destruct sx; try destruct sy; try destruct sz; simpl;
    try discriminate; try reflexivity;
    rewrite ?Pos.compare_cont_spec;
    repeat match goal with
      | |- context [(?a ?= ?b)%Z] => destruct (Z.compare_spec a b)
      | |- context [(?a ?= ?b)%positive] => destruct (Pos.compare_spec a b)
      end; simpl; try discriminate; try reflexivity; intros; lia.
Qed.

Lemma SFcompare_Eq_Lt_trans x y z :
  SFcompare x y = Some Eq -> SFcompare y z = Some Lt ->
  SFcompare x z = Some Lt.
Proof.
  destruct x as [sx | sx | | sx mx ex], y as [sy | sy | | sy my ey],
    z as [sz | sz | | sz mz ez];
    try destruct sx; try destruct sy; try destruct sz; simpl;
    try discriminate; try reflexivity;
    rewrite ?Pos.compare_cont_spec;
    repeat match goal with
      | |- context [(?a ?= ?b)%Z] => destruct (Z.compare_spec a b)
      | |- context [(?a ?= ?b)%positive] => destruct (Pos.compare_spec a b)
      end; simpl; try discriminate; try reflexivity; intros; lia.
Qed.

Lemma lt_compare x y :
  lt x y = true <-> SFcompare (Prim2SF x) (Prim2SF y) = Some Lt.
Proof.
  unfold lt. rewrite ltb_spec. unfold SFltb.
  destruct (SFcompare (Prim2SF x) (Prim2SF y)) as [[| |] |]; easy.
Qed.

Lemma equal_compare x y :
  equal x y = true <-> SFcompare (Prim2SF x) (Prim2SF y) = Some Eq.
Proof.
  unfold equal. rewrite eqb_spec. unfold SFeqb.
  destruct (SFcompare (Prim2SF x) (Prim2SF y)) as [[| |] |]; easy.
Qed.

Lemma le_compare x y :
  le x y = true <->
  SFcompare (Prim2SF x) (Prim2SF y) = Some Lt \/
  SFcompare (Prim2SF x) (Prim2SF y) = Some Eq.
Proof.
  unfold le. rewrite leb_spec. unfold SFleb.
  destruct (SFcompare (Prim2SF x) (Prim2SF y)) as [[| |] |];
    split; intros H; try easy; try tauto; destruct H; discriminate.
Qed.

Lemma gt_compare x y :
  gt x y = true <-> SFcompare (Prim2SF x) (Prim2SF y) = Some Gt.
Proof.
  unfold gt. rewrite lt_compare, (SFcompare_antisym (Prim2SF x) (Prim2SF y)).
  destruct (SFcompare (Prim2SF x) (Prim2SF y)) as [[| |] |]; easy.
Qed.

(** [Number.isNaN] holds of NaN only, and NaN is one number. *)
Lemma Number_isNaN_spec x :
  Number_isNaN x = true <-> Prim2SF x = S754_nan.
Proof.
  unfold Number_isNaN, is_nan. rewrite eqb_spec. unfold SFeqb. split.
  - intros H. destruct (Prim2SF x) as [s | s | | s m e] eqn:E; try reflexivity;
      rewrite SFcompare_refl in H by discriminate; discriminate.
  - intros ->. reflexivity.
Qed.

Lemma Number_isNaN_NaN x : Number_isNaN x = true <-> x = NaN.
Proof.
  rewrite Number_isNaN_spec. split.
  - intros H. apply Prim2SF_inj. now rewrite H.
  - intros ->. reflexivity.
Qed.

Lemma Number_isNaN_false x :
  Number_isNaN x = false <-> Prim2SF x <> S754_nan.
Proof.
  pose proof (Number_isNaN_spec x) as H.
  destruct (Number_isNaN x); split; intros; try easy.
  - exfalso. tauto.
  - intros E. apply H in E. discriminate.
Qed.

Lemma compare_numbers x y :
  Number_isNaN x = false -> Number_isNaN y = false ->
  exists c, SFcompare (Prim2SF x) (Prim2SF y) = Some c.
Proof.
  rewrite !Number_isNaN_false. intros Hx Hy.
  destruct (SFcompare (Prim2SF x) (Prim2SF y)) as [c |] eqn:E;
    [now exists c |].
  apply SFcompare_None in E. tauto.
Qed.

(** [x < y] and [x > y] exclude each other. *)
Lemma lt_not_gt x y : lt x y = true -> gt x y = false.
Proof.
  rewrite lt_compare. intros H.
  destruct (gt x y) eqn:E; [| reflexivity].
  apply gt_compare in E. congruence.
Qed.

Lemma equal_not_lt_gt x y :
  equal x y = true -> lt x y = false /\ gt x y = false.
Proof.
  rewrite equal_compare. intros H. split.
  - destruct (lt x y) eqn:E; [| reflexivity]. apply lt_compare in E. congruence.
  - destruct (gt x y) eqn:E; [| reflexivity]. apply gt_compare in E. congruence.
Qed.

(** Two numbers of which neither is below the other are equal, unless one of
    them is NaN. *)
Lemma not_lt_not_gt x y :
  lt x y = false -> gt x y = false ->
  equal x y = true \/ Number_isNaN x = true \/ Number_isNaN y = true.
Proof.
  intros Hlt Hgt.
  destruct (Number_isNaN x) eqn:Hx; [tauto |].
  destruct (Number_isNaN y) eqn:Hy; [tauto |].
  left. destruct (compare_numbers x y Hx Hy) as [[| |] Hc].
  - now apply equal_compare.
  - apply lt_compare in Hc. congruence.
  - apply gt_compare in Hc. congruence.
Qed.

Lemma le_not_NaN x y :
  le x y = true -> Number_isNaN x = false /\ Number_isNaN y = false.
Proof.
  rewrite le_compare, !Number_isNaN_false. intros H.
  split; intros E; rewrite E in H; destruct H as [H | H];
    try discriminate; destruct (Prim2SF x); discriminate.
Qed.

Lemma le_not_gt x y :
  le x y = true -> gt x y = false /\ Number_isNaN x = false.
Proof.
  intros H. split; [| now apply le_not_NaN in H].
  apply le_compare in H.
  destruct (gt x y) eqn:E; [| reflexivity].
  apply gt_compare in E. destruct H; congruence.
Qed.

Lemma not_gt_le x y :
  Number_isNaN x = false -> Number_isNaN y = false ->
  gt x y = false -> le x y = true.
Proof.
  intros Hx Hy Hgt. apply le_compare.
  destruct (compare_numbers x y Hx Hy) as [[| |] Hc]; try tauto.
  apply gt_compare in Hc. congruence.
Qed.

Lemma gt_not_NaN x y :
  gt x y = true -> Number_isNaN x = false /\ Number_isNaN y = false.
Proof.
  rewrite gt_compare, !Number_isNaN_false. intros H.
  split; intros E; rewrite E in H; try discriminate.
  destruct (Prim2SF x); discriminate.
Qed.

(** [x <= y] and [y < z] give [x < z]; [x < y] and [y <= z] give [x < z]. *)
Lemma le_lt_trans x y z : le x y = true -> lt y z = true -> lt x z = true.
Proof.
  rewrite le_compare, !lt_compare. intros [H | H] Hyz.
  - eapply SFcompare_Lt_trans; eassumption.
  - eapply SFcompare_Eq_Lt_trans; eassumption.
Qed.

Lemma lt_le_trans x y z : lt x y = true -> le y z = true -> lt x z = true.
Proof.
  rewrite le_compare, !lt_compare. intros Hxy [H | H].
  - eapply SFcompare_Lt_trans; eassumption.
  - eapply SFcompare_Lt_Eq_trans; eassumption.
Qed.

(** ** Significance classification *)

Lemma lt_001_005 : lt 0.01%float BASE_SIGNIFICANCE = true.
Proof. reflexivity. Qed.

Lemma ratePValue_cases (p : number) :
  ratePValue p =
    if gt p BASE_SIGNIFICANCE then "Not significant"%string
    else if gt p 0.01%float then "Significant"%string
         else "Very significant"%string.
Proof. reflexivity. Qed.

(** C3: for a p-value p that is a number, [ratePValue] answers "Not
    significant" exactly when p > 0.05, "Significant" exactly when
    0.01 < p <= 0.05 and "Very significant" exactly when p <= 0.01; the
    boundary 0.05 is "Significant" and the boundary 0.01 is "Very
    significant". *)
Theorem ratePValue_classification (p : number) :
  Number_isNaN p = false ->
  (ratePValue p = "Not significant"%string <-> gt p 0.05%float = true) /\
  (ratePValue p = "Significant"%string <->
   gt p 0.01%float = true /\ le p 0.05%float = true) /\
  (ratePValue p = "Very significant"%string <-> le p 0.01%float = true) /\
  ratePValue 0.05%float = "Significant"%string /\
  ratePValue 0.01%float = "Very significant"%string.
Proof.
  intros Hp. rewrite ratePValue_cases.
  change BASE_SIGNIFICANCE with 0.05%float.
  assert (H5 : gt p 0.05%float = false <-> le p 0.05%float = true).
  { split; [now apply not_gt_le | apply le_not_gt]. }
  assert (H1 : gt p 0.01%float = false <-> le p 0.01%float = true).
  { split; [now apply not_gt_le | apply le_not_gt]. }
  assert (H15 : le p 0.01%float = true -> gt p 0.05%float = false).
  { intros H. apply lt_not_gt. apply (le_lt_trans _ _ _ H lt_001_005). }
  destruct (gt p 0.05%float) eqn:E5, (gt p 0.01%float) eqn:E1;
    repeat split; intros; try reflexivity; try discriminate;
    repeat match goal with
      | H : _ /\ _ |- _ => destruct H
      end;
    try (apply H5; reflexivity); try (apply H1; reflexivity);
    try (exfalso;
         match goal with
         | H : le p 0.05%float = true |- _ => apply H5 in H; discriminate
         | H : le p 0.01%float = true |- _ =>
             first [ apply H1 in H; discriminate
                   | apply H15 in H; discriminate ]
         end).
Qed.

Lemma ratePValue_classification_witness :
  Number_isNaN 0.03%float = false /\
  ratePValue 0.03%float = "Significant"%string.
Proof.
  assert (H : Number_isNaN 0.03%float = false) by reflexivity.
  split; [exact H |].
  apply (proj2 (proj1 (proj2 (ratePValue_classification 0.03%float H)))).
  split; reflexivity.
Defined.

(** ** The process operations *)

Lemma console_log_printed l s : console_log l s = (Normal tt, printed s [l]).
Proof. reflexivity. Qed.

Lemma printed_nil s : printed s [] = s.
Proof. destruct s; unfold printed; simpl; now rewrite app_nil_r. Qed.

Lemma printed_printed s a b : printed (printed s a) b = printed s (a ++ b).
Proof. unfold printed; simpl; now rewrite app_assoc. Qed.

Lemma verbose_printed l s :
  verbose l s = (Normal tt, printed s (if speaks (options s) then [l] else [])).
Proof.
  unfold verbose, speaks. destruct (options s) as [o |]; [| reflexivity].
  destruct (verbose_flag o); [reflexivity | now rewrite printed_nil].
Qed.

(** ** The mean *)

Lemma calculateMean_cons first rest s :
  calculateMean (first :: rest) s
  = (Normal (div (fold_left (fun sum value => add sum value) rest first)
               (length_of (first :: rest))), s).
Proof. reflexivity. Qed.

(** [calculateMean] returns on a non-empty array only, and whatever the
    process is, which it leaves as it was. *)
Lemma calculateMean_normal values s s' m :
  calculateMean values s = (Normal m, s') ->
  values <> [] /\ s' = s /\ forall t, calculateMean values t = (Normal m, t).
Proof.
  destruct values as [| first rest]; [discriminate |].
  rewrite calculateMean_cons. intros H; inversion H; subst.
  split; [discriminate |]. split; [reflexivity |].
  intros t. apply calculateMean_cons.
Qed.

Lemma calculateMean_nonempty values s :
  values <> [] -> exists m, calculateMean values s = (Normal m, s).
Proof.
  destruct values as [| first rest]; [easy | intros _].
  eexists. apply calculateMean_cons.
Qed.

(** ** [analyseResults], step by step *)

Section AnalysisFacts.

Variable Math_pow : number -> number -> number.
Variable ttest : list number -> list number -> alternative -> number.

(** Lines 77 to 92, once the two means are computed. *)
Lemma chooseHypothesis_means (oldSet newSet : list number) (s : process)
  (om nm : number) :
  calculateMean oldSet s = (Normal om, s) ->
  calculateMean newSet s = (Normal nm, s) ->
  chooseHypothesis ttest oldSet newSet s =
    if lt om nm then
      (Normal {| oldMean := om; newMean := nm; direction := -1;
                 pValue := ttest oldSet newSet Less |},
       logged s (oldSet, newSet, Less))
    else if gt om nm then
      (Normal {| oldMean := om; newMean := nm; direction := 1;
                 pValue := ttest oldSet newSet Greater |},
       logged s (oldSet, newSet, Greater))
    else
      (Normal {| oldMean := om; newMean := nm; direction := 0;
                 pValue := 0%float |}, s).
Proof.
  intros Ho Hn. unfold chooseHypothesis.
  unfold bind at 1. rewrite Ho.
  unfold bind at 1. rewrite Hn.
  destruct (lt om nm); [reflexivity |].
  destruct (gt om nm); reflexivity.
Qed.

(** Lines 94 to 145: the guard ends the process on NaN; otherwise the
    verbose lines, if any, come before the final lines. *)
Lemma report_lines (v : verdict) (s : process) :
  report Math_pow v s =
    if Number_isNaN (pValue v) then
      (Exit (-1), complained s [[Text "Error: p-value is NaN."]])
    else
      (Normal tt,
       printed s ((if speaks (options s) && negb (direction v =? 0)%Z
                   then verbose_lines v else [])
                  ++ final_lines Math_pow v)).
Proof.
  unfold report. destruct (Number_isNaN (pValue v)); [reflexivity |].
  unfold bind at 1. unfold ret at 1.
  unfold final_lines, verbose_lines, direction_line, direction_word.
  destruct (direction v =? 0)%Z eqn:Hzero.
  - rewrite andb_false_r. reflexivity.
  - rewrite andb_true_r. simpl negb. cbv iota.
    unfold bind. rewrite !verbose_printed.
    change (options (printed s ?l)) with (options s).
    destruct (speaks (options s));
      destruct (gt (pValue v) BASE_SIGNIFICANCE);
      destruct (direction v =? 1)%Z;
      rewrite ?console_log_printed, ?printed_printed, ?printed_nil;
      reflexivity.
Qed.

Lemma analyseResults_unfold (oldSet newSet : list number) (s : process) :
  analyseResults Math_pow ttest oldSet newSet s =
    match chooseHypothesis ttest oldSet newSet s with
    | (Normal v, s') => report Math_pow v s'
    | (Exit status, s') => (Exit status, s')
    | (Throw error, s') => (Throw error, s')
    end.
Proof. reflexivity. Qed.

End AnalysisFacts.

(** ** Direction selection *)

(** C1, as the code has it: on two non-empty arrays [calculateMean] gives the
    two means, and [analyseResults] chooses from them: old mean below new
    mean, it runs the test with alternative "less" and the direction is -1
    (SLOWER); old mean above new mean, it runs the test with alternative
    "greater" and the direction is 1 (FASTER); equal means, the direction is
    0 (NONE), and no test is run.  The direction is 0 exactly when neither
    mean is below the other: when the two means are equal as numbers (the
    same number, or the two zeros), or when one of them is NaN. *)
Theorem direction_follows_means
  (Math_pow : number -> number -> number)
  (ttest : list number -> list number -> alternative -> number)
  (oldSet newSet : list number) (s : process) :
  oldSet <> [] -> newSet <> [] ->
  exists om nm,
    calculateMean oldSet s = (Normal om, s) /\
    calculateMean newSet s = (Normal nm, s) /\
    (lt om nm = true ->
     chooseHypothesis ttest oldSet newSet s =
       (Normal {| oldMean := om; newMean := nm; direction := -1;
                  pValue := ttest oldSet newSet Less |},
        logged s (oldSet, newSet, Less))) /\
    (gt om nm = true ->
     chooseHypothesis ttest oldSet newSet s =
       (Normal {| oldMean := om; newMean := nm; direction := 1;
                  pValue := ttest oldSet newSet Greater |},
        logged s (oldSet, newSet, Greater))) /\
    (equal om nm = true ->
     chooseHypothesis ttest oldSet newSet s =
       (Normal {| oldMean := om; newMean := nm; direction := 0;
                  pValue := 0%float |}, s)) /\
    exists v s',
      chooseHypothesis ttest oldSet newSet s = (Normal v, s') /\
      analyseResults Math_pow ttest oldSet newSet s = report Math_pow v s' /\
      (direction v = 0%Z <-> lt om nm = false /\ gt om nm = false) /\
      (direction v = 0%Z ->
       equal om nm = true \/
       Number_isNaN om = true \/ Number_isNaN nm = true).
Proof.
  intros Ho Hn.
  destruct (calculateMean_nonempty oldSet s Ho) as [om Hom].
  destruct (calculateMean_nonempty newSet s Hn) as [nm Hnm].
  exists om, nm. split; [exact Hom |]. split; [exact Hnm |].
  rewrite (analyseResults_unfold Math_pow ttest).
  rewrite (chooseHypothesis_means ttest _ _ _ _ _ Hom Hnm).
  destruct (lt om nm) eqn:Hlt; [| destruct (gt om nm) eqn:Hgt].
  - pose proof (lt_not_gt _ _ Hlt) as Hgt.
    split; [reflexivity |]. split; [congruence |].
    split; [intros E; apply equal_not_lt_gt in E; destruct E; congruence |].
    do 2 eexists. split; [reflexivity |]. split; [reflexivity |].
    cbn [direction]. split; [split; [lia | intros []; discriminate] | lia].
  - split; [discriminate |]. split; [reflexivity |].
    split; [intros E; apply equal_not_lt_gt in E; destruct E; congruence |].
    do 2 eexists. split; [reflexivity |]. split; [reflexivity |].
    cbn [direction]. split; [split; [lia | intros []; discriminate] | lia].
  - split; [discriminate |]. split; [discriminate |].
    split; [reflexivity |].
    do 2 eexists. split; [reflexivity |]. split; [reflexivity |].
    cbn [direction]. split; [easy |].
    intros _. now apply not_lt_not_gt.
Qed.

Lemma direction_follows_means_witness :
  [1; 2]%float <> [] /\ [3]%float <> [] /\
  exists om nm,
    calculateMean [1; 2]%float (start quiet) = (Normal om, start quiet) /\
    calculateMean [3]%float (start quiet) = (Normal nm, start quiet) /\
    (lt om nm = true ->
     chooseHypothesis (fixed_ttest 0.01%float) [1; 2]%float [3]%float
       (start quiet) =
       (Normal {| oldMean := om; newMean := nm; direction := -1;
                  pValue := 0.01%float |},
        logged (start quiet) ([1; 2]%float, [3]%float, Less))).
Proof.
  assert (H1 : [1; 2]%float <> []) by discriminate.
  assert (H2 : [3]%float <> []) by discriminate.
  split; [exact H1 |]. split; [exact H2 |].
  destruct (direction_follows_means pow_by_product (fixed_ttest 0.01%float)
              [1; 2]%float [3]%float (start quiet) H1 H2)
    as (om & nm & Hom & Hnm & Hless & _).
  exists om, nm. split; [exact Hom |]. split; [exact Hnm |]. exact Hless.
Defined.

(** The end of C1 fails on old = [0], new = [-0]: the means are 0 and -0,
    neither is below the other, so the direction is 0, and they are not the
    same number. *)
Lemma zeros_are_not_identical :
  calculateMean [0%float] (start quiet) = (Normal 0%float, start quiet) /\
  calculateMean [(-0)%float] (start quiet)
  = (Normal (-0)%float, start quiet) /\
  chooseHypothesis (fixed_ttest 0.01%float) [0%float] [(-0)%float]
    (start quiet)
  = (Normal {| oldMean := 0%float; newMean := (-0)%float; direction := 0;
               pValue := 0%float |}, start quiet) /\
  ~ none_only_when_identical.
Proof.
  assert (Hchoose :
    chooseHypothesis (fixed_ttest 0.01%float) [0%float] [(-0)%float]
      (start quiet)
    = (Normal {| oldMean := 0%float; newMean := (-0)%float; direction := 0;
                 pValue := 0%float |}, start quiet)) by reflexivity.
  split; [reflexivity |]. split; [reflexivity |]. split; [exact Hchoose |].
  intros claim.
  specialize (claim (fixed_ttest 0.01%float) [0%float] [(-0)%float]
                (start quiet) (start quiet) 0%float (-0)%float _
                eq_refl eq_refl Hchoose eq_refl).
  apply (f_equal Prim2SF) in claim. vm_compute in claim. discriminate.
Qed.

(** C4: when the two means are equal, [analyseResults] calls no test, takes
    the p-value to be 0 and the direction to be 0, and prints the single line
    "There appears to be no significant difference between both versions.",
    whatever the verbose flag: no direction word and no percentage figure. *)
Theorem equal_means_skip_the_test
  (Math_pow : number -> number -> number)
  (ttest : list number -> list number -> alternative -> number)
  (oldSet newSet : list number) (s : process) (om nm : number) :
  calculateMean oldSet s = (Normal om, s) ->
  calculateMean newSet s = (Normal nm, s) ->
  equal om nm = true ->
  chooseHypothesis ttest oldSet newSet s =
    (Normal {| oldMean := om; newMean := nm; direction := 0;
               pValue := 0%float |}, s) /\
  analyseResults Math_pow ttest oldSet newSet s =
    (Normal tt,
     printed s
       [[Text "There appears to be no significant difference between both versions."]]) /\
  tests (snd (analyseResults Math_pow ttest oldSet newSet s)) = tests s /\
  shows_number
    [Text "There appears to be no significant difference between both versions."]
  = false.
Proof.
  intros Hom Hnm Heq. destruct (equal_not_lt_gt _ _ Heq) as [Hlt Hgt].
  assert (Hchoose :
    chooseHypothesis ttest oldSet newSet s =
      (Normal {| oldMean := om; newMean := nm; direction := 0;
                 pValue := 0%float |}, s)).
  { rewrite (chooseHypothesis_means ttest _ _ _ _ _ Hom Hnm), Hlt, Hgt.
    reflexivity. }
  assert (Hrun :
    analyseResults Math_pow ttest oldSet newSet s =
      (Normal tt, printed s [no_difference_line])).
  { rewrite analyseResults_unfold, Hchoose, report_lines.
    cbn [pValue direction]. unfold final_lines. cbn [direction].
    simpl. now rewrite andb_false_r. }
  split; [exact Hchoose |]. split; [exact Hrun |].
  split; [now rewrite Hrun | reflexivity].
Qed.

Lemma equal_means_skip_the_test_witness :
  calculateMean [1; 3]%float (start None) = (Normal 2%float, start None) /\
  calculateMean [2; 2]%float (start None) = (Normal 2%float, start None) /\
  equal 2%float 2%float = true /\
  analyseResults pow_by_product (fixed_ttest NaN) [1; 3]%float [2; 2]%float
    (start None)
  = (Normal tt,
     printed (start None)
       [[Text "There appears to be no significant difference between both versions."]]).
Proof.
  assert (H1 : calculateMean [1; 3]%float (start None)
               = (Normal 2%float, start None)) by reflexivity.
  assert (H2 : calculateMean [2; 2]%float (start None)
               = (Normal 2%float, start None)) by reflexivity.
  assert (H3 : equal 2%float 2%float = true) by reflexivity.
  repeat (split; [assumption |]).
  exact (proj1 (proj2
    (equal_means_skip_the_test pow_by_product (fixed_ttest NaN)
       [1; 3]%float [2; 2]%float (start None) _ _ H1 H2 H3))).
Defined.

(** ** The NaN guard *)

Lemma chooseHypothesis_scenario ttest s :
  chooseHypothesis ttest all_100 all_80 s
  = (Normal {| oldMean := 100%float; newMean := 80%float; direction := 1;
               pValue := ttest all_100 all_80 Greater |},
     logged s (all_100, all_80, Greater)).
Proof.
  rewrite (chooseHypothesis_means ttest all_100 all_80 s 100%float 80%float)
    by reflexivity.
  reflexivity.
Qed.

(** The p-value of a verdict is the answer of the test, or the 0 of equal
    means; the process has then no more on its standard output. *)
Lemma chooseHypothesis_p_value ttest oldSet newSet s s1 v :
  chooseHypothesis ttest oldSet newSet s = (Normal v, s1) ->
  stdout s1 = stdout s /\ stderr s1 = stderr s /\ options s1 = options s /\
  ((direction v = 0%Z /\ pValue v = 0%float /\ s1 = s) \/
   (direction v <> 0%Z /\
    exists alt, pValue v = ttest oldSet newSet alt /\
                s1 = logged s (oldSet, newSet, alt))).
Proof.
  intros Hchoose.
  destruct oldSet as [| o0 orest]; [discriminate |].
  destruct newSet as [| n0 nrest]; [discriminate |].
  rewrite (chooseHypothesis_means ttest _ _ _ _ _
             (calculateMean_cons o0 orest s) (calculateMean_cons n0 nrest s))
    in Hchoose.
  match type of Hchoose with
  | context [lt ?a ?b] => destruct (lt a b); [| destruct (gt a b)]
  end; inversion Hchoose; subst; cbn [direction pValue];
    repeat split; try reflexivity.
  - right. split; [lia |]. now exists Less.
  - right. split; [lia |]. now exists Greater.
  - now left.
Qed.

Section Guard.

Variable Math_pow : number -> number -> number.
Variable ttest : list number -> list number -> alternative -> number.

(** What the guard relies on from the external test: a p-value is a
    probability, or NaN when the statistic cannot be computed; it is never an
    infinity. *)
Hypothesis p_value_not_infinite :
  forall a b alt,
    isFinite (ttest a b alt) = true \/ Number_isNaN (ttest a b alt) = true.

(** C2: when the p-value is not a finite number, [analyseResults] writes
    "Error: p-value is NaN." to the standard error and ends the process with
    the status -1, and no line is printed on the standard output.  In the
    scenario old = [100 x 5], new = [80 x 5] the test that is run is the
    "greater" one, and when it answers no finite p-value the run ends so,
    with no report. *)
Theorem not_finite_p_value_aborts
  (oldSet newSet : list number) (s s1 : process) (v : verdict) :
  chooseHypothesis ttest oldSet newSet s = (Normal v, s1) ->
  isFinite (pValue v) = false ->
  (analyseResults Math_pow ttest oldSet newSet s
   = (Exit (-1), complained s1 [[Text "Error: p-value is NaN."]]) /\
   stdout (snd (analyseResults Math_pow ttest oldSet newSet s)) = stdout s /\
   stderr (snd (analyseResults Math_pow ttest oldSet newSet s))
   = stderr s ++ [[Text "Error: p-value is NaN."]]) /\
  chooseHypothesis ttest all_100 all_80 s
  = (Normal {| oldMean := 100%float; newMean := 80%float; direction := 1;
               pValue := ttest all_100 all_80 Greater |},
     logged s (all_100, all_80, Greater)) /\
  (isFinite (ttest all_100 all_80 Greater) = false ->
   analyseResults Math_pow ttest all_100 all_80 s
   = (Exit (-1),
      complained (logged s (all_100, all_80, Greater))
        [[Text "Error: p-value is NaN."]])).
Proof.
  assert (Hnan : forall a b alt,
            isFinite (ttest a b alt) = false ->
            Number_isNaN (ttest a b alt) = true).
  { intros a b alt H. destruct (p_value_not_infinite a b alt); congruence. }
  intros Hchoose Hp.
  destruct (chooseHypothesis_p_value _ _ _ _ _ _ Hchoose)
    as (Hout & Herr & _ & [(_ & H0 & _) | (_ & alt & Halt & _)]).
  { rewrite H0 in Hp. discriminate. }
  assert (Hrun : analyseResults Math_pow ttest oldSet newSet s
                 = (Exit (-1), complained s1 [[Text "Error: p-value is NaN."]])).
  { rewrite analyseResults_unfold, Hchoose, report_lines.
    rewrite Halt in Hp |- *. now rewrite Hnan. }
  split; [| split].
  - rewrite Hrun. simpl. rewrite Hout, Herr. repeat split; reflexivity.
  - apply chooseHypothesis_scenario.
  - intros Hdegenerate.
    rewrite analyseResults_unfold, chooseHypothesis_scenario, report_lines.
    cbn [pValue]. now rewrite Hnan.
Qed.

End Guard.

Lemma not_finite_p_value_aborts_witness :
  (forall a b alt,
     isFinite (fixed_ttest NaN a b alt) = true \/
     Number_isNaN (fixed_ttest NaN a b alt) = true) /\
  isFinite NaN = false /\
  analyseResults pow_by_product (fixed_ttest NaN) all_100 all_80 (start quiet)
  = (Exit (-1),
     complained (logged (start quiet) (all_100, all_80, Greater))
       [[Text "Error: p-value is NaN."]]).
Proof.
  assert (H0 : forall a b alt,
            isFinite (fixed_ttest NaN a b alt) = true \/
            Number_isNaN (fixed_ttest NaN a b alt) = true)
    by (intros; right; reflexivity).
  assert (H1 : isFinite NaN = false) by reflexivity.
  split; [exact H0 |]. split; [exact H1 |].
  exact (proj1 (proj1
    (not_finite_p_value_aborts pow_by_product (fixed_ttest NaN) H0
       all_100 all_80 (start quiet) _ _
       (chooseHypothesis_scenario (fixed_ttest NaN) (start quiet)) H1))).
Defined.

(** ** The percentage figures *)

(** C5: with distinct means and a p-value of at most 0.05 the last line of
    the report carries two figures.  When the new mean is the smaller one
    (direction 1, FASTER) they are round((1 - newMean/oldMean) * 100), the
    percentage faster, and round(newMean/oldMean * 100), the share of the
    old version's time; when it is the larger one (direction -1, SLOWER) they
    are round((newMean/oldMean - 1) * 100), the percentage slower, and the
    same share.  The means are those that [calculateMean] returns, and each
    operation is the one of JavaScript. *)
Theorem significant_report_figures
  (Math_pow : number -> number -> number)
  (ttest : list number -> list number -> alternative -> number)
  (oldSet newSet : list number) (s s1 : process) (om nm : number)
  (v : verdict) :
  calculateMean oldSet s = (Normal om, s) ->
  calculateMean newSet s = (Normal nm, s) ->
  chooseHypothesis ttest oldSet newSet s = (Normal v, s1) ->
  le (pValue v) BASE_SIGNIFICANCE = true ->
  let before :=
    (if speaks (options s) then verbose_lines v else []) ++ [direction_line v] in
  (gt om nm = true ->
   direction v = 1%Z /\
   analyseResults Math_pow ttest oldSet newSet s =
     (Normal tt,
      printed s1
        (before ++
         [percent_line
            (round Math_pow (mul (sub 1%float (div nm om)) 100%float) None)
            "faster"
            (round Math_pow (mul (div nm om) 100%float) None)]))) /\
  (lt om nm = true ->
   direction v = (-1)%Z /\
   analyseResults Math_pow ttest oldSet newSet s =
     (Normal tt,
      printed s1
        (before ++
         [percent_line
            (round Math_pow (mul (sub (div nm om) 1%float) 100%float) None)
            "slower"
            (round Math_pow (mul (div nm om) 100%float) None)]))).
Proof.
  intros Hom Hnm Hchoose Hle before. subst before.
  destruct (le_not_gt _ _ Hle) as [Hgt Hnan].
  rewrite analyseResults_unfold, Hchoose, report_lines, Hnan.
  rewrite (chooseHypothesis_means ttest _ _ _ _ _ Hom Hnm) in Hchoose.
  split; intros Horder.
  - assert (Hlt : lt om nm = false).
    { destruct (lt om nm) eqn:E; [| reflexivity].
      apply lt_not_gt in E. congruence. }
    rewrite Hlt, Horder in Hchoose.
    inversion Hchoose; subst v s1; clear Hchoose.
    split; [reflexivity |].
    unfold final_lines; cbn [direction pValue oldMean newMean] in *.
    rewrite Hgt. simpl Z.eqb. cbv iota. simpl negb. rewrite andb_true_r.
    change (options (logged s ?c)) with (options s).
    destruct (speaks (options s)); reflexivity.
  - rewrite Horder in Hchoose.
    inversion Hchoose; subst v s1; clear Hchoose.
    split; [reflexivity |].
    unfold final_lines; cbn [direction pValue oldMean newMean] in *.
    rewrite Hgt. simpl Z.eqb. cbv iota. simpl negb. rewrite andb_true_r.
    change (options (logged s ?c)) with (options s).
    destruct (speaks (options s)); reflexivity.
Qed.

Lemma choose_example (p : number) (s : process) :
  chooseHypothesis (fixed_ttest p) [1; 2]%float [3]%float s
  = (Normal {| oldMean := 1.5%float; newMean := 3%float;
               direction := -1; pValue := p |},
     logged s ([1; 2]%float, [3]%float, Less)).
Proof.
  rewrite (chooseHypothesis_means (fixed_ttest p) [1; 2]%float [3]%float s
             1.5%float 3%float) by reflexivity.
  reflexivity.
Qed.

Lemma significant_report_figures_witness :
  calculateMean [1; 2]%float (start quiet) = (Normal 1.5%float, start quiet) /\
  calculateMean [3]%float (start quiet) = (Normal 3%float, start quiet) /\
  le 0.01%float BASE_SIGNIFICANCE = true /\
  lt 1.5%float 3%float = true /\
  analyseResults pow_by_product (fixed_ttest 0.01%float) [1; 2]%float
    [3]%float (start quiet)
  = (Normal tt,
     printed (logged (start quiet) ([1; 2]%float, [3]%float, Less))
       [ [Text "The new version appears to be "; Text "SLOWER";
          Text " than the old version."];
         percent_line
           (round pow_by_product
              (mul (sub (div 3%float 1.5%float) 1%float) 100%float) None)
           "slower"
           (round pow_by_product (mul (div 3%float 1.5%float) 100%float)
              None) ]).
Proof.
  assert (H1 : calculateMean [1; 2]%float (start quiet)
               = (Normal 1.5%float, start quiet)) by reflexivity.
  assert (H2 : calculateMean [3]%float (start quiet)
               = (Normal 3%float, start quiet)) by reflexivity.
  assert (H3 : le 0.01%float BASE_SIGNIFICANCE = true) by reflexivity.
  assert (H4 : lt 1.5%float 3%float = true) by reflexivity.
  repeat (split; [assumption |]).
  exact (proj2 (proj2
    (significant_report_figures pow_by_product (fixed_ttest 0.01%float)
       [1; 2]%float [3]%float (start quiet) _ _ _ _ H1 H2
       (choose_example _ _) H3) H4)).
Defined.

(** ** Swapping the two arrays *)

Section Swap.

Variable Math_pow : number -> number -> number.
Variable ttest : list number -> list number -> alternative -> number.

(** The one property of the external test that the swap relies on: the
    "less" test of (a, b) and the "greater" test of (b, a) are the same
    test, so they have the same p-value. *)
Hypothesis ttest_swap : forall a b, ttest a b Less = ttest b a Greater.


End Swap.


(** ** The verbose flag *)

Lemma calculateMean_pure values :
  exists c, forall s, calculateMean values s = (c, s).
Proof. destruct values; eexists; intros s; reflexivity. Qed.

(** [chooseHypothesis] reads nothing of the process and only adds to the
    record of test calls. *)
Lemma chooseHypothesis_frame ttest oldSet newSet :
  exists c calls, forall s,
    chooseHypothesis ttest oldSet newSet s
    = (c, {| options := options s; stdout := stdout s; stderr := stderr s;
             tests := tests s ++ calls |}).
Proof.
  destruct (calculateMean_pure oldSet) as [co Ho].
  destruct (calculateMean_pure newSet) as [cn Hn].
  unfold chooseHypothesis.
  assert (Hsame : forall s : process,
            s = {| options := options s; stdout := stdout s;
                   stderr := stderr s; tests := tests s ++ [] |}).
  { intros [? ? ? ?]; simpl; now rewrite app_nil_r. }
  destruct co as [om | status | error].
  2, 3: eexists; exists []; intros s; unfold bind at 1; rewrite Ho;
        f_equal; apply Hsame.
  destruct cn as [nm | status | error].
  2, 3: eexists; exists []; intros s; unfold bind at 1; rewrite Ho;
        unfold bind at 1; rewrite Hn; f_equal; apply Hsame.
  destruct (lt om nm) eqn:Hlt; [| destruct (gt om nm) eqn:Hgt].
  - eexists; eexists; intros s. unfold bind at 1; rewrite Ho.
    unfold bind at 1; rewrite Hn. rewrite Hlt. reflexivity.
  - eexists; eexists; intros s. unfold bind at 1; rewrite Ho.
    unfold bind at 1; rewrite Hn. rewrite Hlt, Hgt. reflexivity.
  - eexists; exists []; intros s. unfold bind at 1; rewrite Ho.
    unfold bind at 1; rewrite Hn. rewrite Hlt, Hgt. unfold ret.
    f_equal; apply Hsame.
Qed.

(** C10: the outcome of the hypothesis choice (direction, p-value, hence the
    significance rating), the way the run ends, the standard error and the
    test calls are the same under all options; the standard output differs
    only by the lines [extra], printed before the final lines exactly when
    [verbose] prints.  When the run gets past the NaN guard the final lines
    are those of the verdict, and the extra lines are the hypothesis and
    significance lines, or none when the direction is 0. *)
Theorem verbose_only_adds_lines
  (Math_pow : number -> number -> number)
  (ttest : list number -> list number -> alternative -> number)
  (oldSet newSet : list number) (s : process) :
  exists outcome completion errs calls extra final,
    (forall o : option outputOptions,
       fst (chooseHypothesis ttest oldSet newSet (with_options o s)) = outcome /\
       analyseResults Math_pow ttest oldSet newSet (with_options o s)
       = (completion,
          {| options := o;
             stdout := stdout s ++ (if speaks o then extra else []) ++ final;
             stderr := errs;
             tests := calls |})) /\
    (forall v, outcome = Normal v -> direction v = 0%Z -> extra = []) /\
    (forall v, outcome = Normal v -> Number_isNaN (pValue v) = false ->
               final = final_lines Math_pow v /\
               (direction v <> 0%Z -> extra = verbose_lines v)).
Proof.
  destruct (chooseHypothesis_frame ttest oldSet newSet) as (c & calls & Hc).
  assert (Hquiet : forall (o : option outputOptions) (l : list line),
            l = l ++ (if speaks o then [] else []) ++ []).
  { intros o l. destruct (speaks o); now rewrite app_nil_r. }
  destruct c as [v | status | error].
  - destruct (Number_isNaN (pValue v)) eqn:Hnan.
    + exists (Normal v), (Exit (-1)),
        (stderr s ++ [[Text "Error: p-value is NaN."]]), (tests s ++ calls),
        [], [].
      split; [| split]; [| reflexivity | intros w Hw; inversion Hw; congruence].
      intros o. rewrite analyseResults_unfold, Hc, report_lines, Hnan.
      split; [reflexivity |]. unfold complained; simpl. do 2 f_equal.
      apply Hquiet.
    + exists (Normal v), (Normal tt), (stderr s), (tests s ++ calls),
        (if (direction v =? 0)%Z then [] else verbose_lines v), (final_lines Math_pow v).
      split; [| split].
      * intros o. rewrite analyseResults_unfold, Hc, report_lines, Hnan.
        split; [reflexivity |]. unfold printed; simpl. do 3 f_equal.
        destruct (speaks o), (direction v =? 0)%Z; reflexivity.
      * intros w Hw Hzero; inversion Hw; subst w. now rewrite Hzero.
      * intros w Hw _; inversion Hw; subst w. split; [reflexivity |].
        intros Hnz. destruct (Z.eqb_spec (direction v) 0); easy.
  - exists (Exit status), (Exit status), (stderr s), (tests s ++ calls), [], [].
    split; [| split]; [| discriminate | discriminate].
    intros o. rewrite analyseResults_unfold, Hc.
    split; [reflexivity |]. simpl. do 2 f_equal. apply Hquiet.
  - exists (Throw error), (Throw error), (stderr s), (tests s ++ calls), [], [].
    split; [| split]; [| discriminate | discriminate].
    intros o. rewrite analyseResults_unfold, Hc.
    split; [reflexivity |]. simpl. do 2 f_equal. apply Hquiet.
Qed.

(** ** The standard deviation *)

Lemma fold_left_add_map (f : number -> number) values a :
  fold_left (fun sum value => add sum (f value)) values a
  = fold_left add (map f values) a.
Proof.
  revert a; induction values as [| x rest IH]; intros a; [reflexivity |].
  simpl. apply IH.
Qed.

(** With the mean given, the result is the square root of the mean of the
    squared deviations from it. *)
Lemma calculateStandardDeviation_hint Math_pow values m s :
  calculateStandardDeviation Math_pow values (Some m) s
  = (Normal (population_sd Math_pow values m), s).
Proof.
  unfold calculateStandardDeviation, population_sd, sum, reduce_from.
  unfold bind, ret. now rewrite fold_left_add_map.
Qed.

(** C7, as the code has it: on a non-empty array
    [calculateStandardDeviation] evaluates sqrt(sum((x - mean)^2) / N), N
    the length (no Bessel correction), each operation being the one of
    JavaScript: the mean is the number that [calculateMean] returns, the
    squares are those of [Math.pow] and they are summed from 0 in the order
    of the values.  Passing the precomputed mean,
    [calculateStandardDeviation(v, calculateMean(v))], gives the same
    result as the one-argument call. *)
Theorem calculateStandardDeviation_population
  (Math_pow : number -> number -> number)
  (values : list number) (s : process) (m : number) :
  calculateMean values s = (Normal m, s) ->
  calculateStandardDeviation Math_pow values None s
  = (Normal (population_sd Math_pow values m), s) /\
  (m' <- calculateMean values ;;
   calculateStandardDeviation Math_pow values (Some m')) s
  = calculateStandardDeviation Math_pow values None s.
Proof.
  intros Hm.
  assert (Hone : calculateStandardDeviation Math_pow values None s
                 = (Normal (population_sd Math_pow values m), s)).
  { rewrite <- (calculateStandardDeviation_hint Math_pow values m s).
    unfold calculateStandardDeviation at 1. unfold bind at 1.
    rewrite Hm. reflexivity. }
  split; [exact Hone |].
  rewrite Hone. unfold bind at 1. rewrite Hm.
  apply calculateStandardDeviation_hint.
Qed.

Lemma calculateStandardDeviation_population_witness :
  calculateMean [1; 3]%float (start None) = (Normal 2%float, start None) /\
  calculateStandardDeviation pow_by_product [1; 3]%float None (start None)
  = (Normal (population_sd pow_by_product [1; 3]%float 2%float), start None).
Proof.
  assert (H : calculateMean [1; 3]%float (start None)
              = (Normal 2%float, start None)) by reflexivity.
  split; [exact H |].
  exact (proj1 (calculateStandardDeviation_population pow_by_product
                  [1; 3]%float (start None) 2%float H)).
Defined.

(** C7 fails on [0.1, 0.1, 0.1]: the values are equal, so the sum of their
    squared deviations from their average is 0 and so is their population
    standard deviation; the mean that the code computes is
    0.10000000000000002 and the result 1.3877787807814457e-17. *)
Lemma equal_values_deviate :
  calculateMean [0.1; 0.1; 0.1]%float (start None)
  = (Normal 0.10000000000000002%float, start None) /\
  calculateStandardDeviation pow_by_product [0.1; 0.1; 0.1]%float None
    (start None)
  = (Normal 1.3877787807814457e-17%float, start None) /\
  (exact_squares [0.1; 0.1; 0.1]%float == 0)%Q /\
  ~ is_population_sd pow_by_product.
Proof.
  assert (Hrun :
    calculateStandardDeviation pow_by_product [0.1; 0.1; 0.1]%float None
      (start None)
    = (Normal 1.3877787807814457e-17%float, start None))
    by (vm_compute; reflexivity).
  split; [vm_compute; reflexivity |]. split; [exact Hrun |].
  split; [vm_compute; reflexivity |].
  intros claim.
  destruct (claim [0.1; 0.1; 0.1]%float (start None))
    as (d & Hd & Hsquare); [discriminate | reflexivity |].
  rewrite Hrun in Hd. inversion Hd; subst d.
  vm_compute in Hsquare. discriminate.
Qed.

(** ** Whole numbers and [Math.round]

    The binary representation of the number of a whole number below 2^53,
    and the real number it stands for. *)

Section WholeNumbers.

#[local] Open Scope Z_scope.

Lemma digits2_pos_bounds p :
  2 ^ (Z.pos (digits2_pos p) - 1) <= Z.pos p < 2 ^ Z.pos (digits2_pos p).
Proof.
  induction p as [p IH | p IH |]; simpl digits2_pos.
  - rewrite Pos2Z.inj_succ.
    replace (Z.succ (Z.pos (digits2_pos p)) - 1) with (Z.succ (Z.pos (digits2_pos p) - 1)) by lia.
    rewrite !Z.pow_succ_r by lia. lia.
  - rewrite Pos2Z.inj_succ.
    replace (Z.succ (Z.pos (digits2_pos p)) - 1) with (Z.succ (Z.pos (digits2_pos p) - 1)) by lia.
    rewrite !Z.pow_succ_r by lia. lia.
  - simpl. lia.
Qed.

Lemma digits2_pos_iter_xO p n :
  digits2_pos (Pos.iter xO p n) = (digits2_pos p + n)%positive.
Proof.
  induction n using Pos.peano_ind.
  - simpl. lia.
  - rewrite Pos.iter_succ. simpl. rewrite IHn. lia.
Qed.

Lemma iter_xO_value p n : Z.pos (Pos.iter xO p n) = Z.pos p * 2 ^ Z.pos n.
Proof.
  induction n using Pos.peano_ind.
  - simpl. lia.
  - rewrite Pos.iter_succ, Pos2Z.inj_succ, Z.pow_succ_r by lia.
    rewrite Pos2Z.inj_xO, IHn. lia.
Qed.

(** A mantissa of 53 bits with an exponent in range is kept by rounding. *)
Lemma binary_round_aux_exact s m e :
  Z.pos (digits2_pos m) = 53 -> -1074 <= e <= 971 ->
  binary_round_aux prec emax s (Z.pos m) e loc_Exact = S754_finite s m e.
Proof.
  intros Hd He. unfold binary_round_aux, shr_fexp.
  cbn [Zdigits2 shr_record_of_loc]. rewrite Hd.
  assert (Hf : fexp prec emax (53 + e) = e).
  { unfold fexp, emin, prec, emax. lia. }
  rewrite Hf, Z.sub_diag. cbn [shr shr_m loc_of_shr_record round_nearest_even].
  cbn [Zdigits2 shr_record_of_loc]. rewrite Hd, Hf, Z.sub_diag.
  cbn [shr shr_m]. unfold emax, prec.
  destruct (Z.leb_spec e (1024 - 53)); [reflexivity | lia].
Qed.


Lemma binary_normalize_small p :
  Z.pos p < 2 ^ 53 ->
  binary_normalize prec emax (Z.pos p) 0 false
  = S754_finite false (normal p) (Z.pos (digits2_pos p) - 53).
Proof.
  intros Hp. pose proof (digits2_pos_bounds p) as [Hlo _].
  assert (Hd : Z.pos (digits2_pos p) <= 53).
  { destruct (Z.le_gt_cases (Z.pos (digits2_pos p)) 53) as [H | H]; [exact H |].
    exfalso. assert (2 ^ 53 <= 2 ^ (Z.pos (digits2_pos p) - 1)) by (apply Z.pow_le_mono_r; lia).
    lia. }
  unfold binary_normalize, binary_round, shl_align, normal.
  assert (Hf : fexp prec emax (Z.pos (digits2_pos p) + 0) = Z.pos (digits2_pos p) - 53).
  { unfold fexp, emin, prec, emax. lia. }
  rewrite Hf.
  replace (Z.pos (digits2_pos p) - 53 - 0) with (Z.pos (digits2_pos p) - 53) by lia.
  destruct (Z.pos (digits2_pos p) - 53) as [| q | q] eqn:E.
  - replace (53 - Z.pos (digits2_pos p)) with 0 by lia.
    apply binary_round_aux_exact; lia.
  - lia.
  - replace (53 - Z.pos (digits2_pos p)) with (Z.pos q) by lia.
    apply binary_round_aux_exact; [| lia].
    rewrite digits2_pos_iter_xO. lia.
Qed.

Lemma to_Z_of_Z_small z :
  0 <= z < 2 ^ 63 -> Uint63.to_Z (Uint63.of_Z z) = z.
Proof.
  intros Hz. rewrite Uint63.of_Z_spec. apply Z.mod_small.
  change Uint63.wB with (2 ^ 63). exact Hz.
Qed.

Lemma Prim2SF_of_integer k :
  Z.abs k < 2 ^ 53 ->
  Prim2SF (of_integer k) =
    match k with
    | 0 => S754_zero false
    | Z.pos p => S754_finite false (normal p) (Z.pos (digits2_pos p) - 53)
    | Z.neg p => S754_finite true (normal p) (Z.pos (digits2_pos p) - 53)
    end.
Proof.
  intros Hk. unfold of_integer, neg.
  destruct k as [| p | p]; cbn [Z.ltb Z.compare Z.abs] in *.
  - reflexivity.
  - rewrite of_uint63_spec, to_Z_of_Z_small by lia.
    now apply binary_normalize_small.
  - rewrite opp_spec, of_uint63_spec, to_Z_of_Z_small by lia.
    now rewrite binary_normalize_small.
Qed.

Lemma normal_value p :
  Z.pos (digits2_pos p) <= 53 ->
  Z.pos (normal p) = Z.pos p * 2 ^ (53 - Z.pos (digits2_pos p)).
Proof.
  intros Hd. unfold normal.
  destruct (53 - Z.pos (digits2_pos p)) as [| n | n] eqn:E; try lia.
  apply iter_xO_value.
Qed.

Lemma digits_small p : Z.pos p < 2 ^ 53 -> Z.pos (digits2_pos p) <= 53.
Proof.
  intros Hp. pose proof (digits2_pos_bounds p) as [Hlo _].
  destruct (Z.le_gt_cases (Z.pos (digits2_pos p)) 53) as [H | H]; [exact H |].
  exfalso.
  assert (2 ^ 53 <= 2 ^ (Z.pos (digits2_pos p) - 1))
    by (apply Z.pow_le_mono_r; lia).
  lia.
Qed.

(** The number of a whole number below 2^53 stands for that whole number. *)
Lemma exact_of_integer k :
  Z.abs k < 2 ^ 53 -> (exact (of_integer k) == inject_Z k)%Q.
Proof.
  intros Hk. unfold exact. rewrite Prim2SF_of_integer by exact Hk.
  destruct k as [| p | p]; [reflexivity | |]; unfold signed.
  - pose proof (digits_small p Hk) as Hd.
    pose proof (normal_value p Hd) as Hn.
    destruct (Z.leb_spec 0 (Z.pos (digits2_pos p) - 53)) as [H | H].
    + assert (E : Z.pos (digits2_pos p) = 53) by lia.
      rewrite E in Hn. simpl in Hn. rewrite Pos.mul_1_r in Hn.
      unfold Qeq. cbn [Qnum Qden inject_Z]. rewrite E, Hn. simpl. lia.
    + unfold Qeq. cbn [Qnum Qden inject_Z].
      rewrite Z2Pos.id by (apply Z.pow_pos_nonneg; lia).
      rewrite Hn. replace (- (Z.pos (digits2_pos p) - 53)) with (53 - Z.pos (digits2_pos p)) by lia.
      lia.
  - pose proof (digits_small p Hk) as Hd.
    pose proof (normal_value p Hd) as Hn.
    destruct (Z.leb_spec 0 (Z.pos (digits2_pos p) - 53)) as [H | H].
    + assert (E : Z.pos (digits2_pos p) = 53) by lia.
      rewrite E in Hn. simpl in Hn. rewrite Pos.mul_1_r in Hn.
      unfold Qeq. cbn [Qnum Qden inject_Z].
      change (Z.neg (normal p)) with (- Z.pos (normal p)).
      rewrite E, Hn. simpl. lia.
    + unfold Qeq. cbn [Qnum Qden inject_Z].
      rewrite Z2Pos.id by (apply Z.pow_pos_nonneg; lia).
      change (Z.neg (normal p)) with (- Z.pos (normal p)).
      rewrite Hn. replace (- (Z.pos (digits2_pos p) - 53)) with (53 - Z.pos (digits2_pos p)) by lia.
      lia.
Qed.

Lemma Prim2SF_digits x s m e :
  Prim2SF x = S754_finite s m e ->
  Z.pos (digits2_pos m) <= 53 /\ -1074 <= e <= 971.
Proof.
  intros H. pose proof (Prim2SF_valid x) as Hv. rewrite H in Hv.
  unfold SpecFloat.valid_binary, bounded, canonical_mantissa in Hv.
  apply andb_prop in Hv. destruct Hv as [Hc He].
  apply Z.eqb_eq in Hc. apply Z.leb_le in He.
  unfold fexp, emin, emax, prec in *. lia.
Qed.

Lemma nearest_up_div s m e :
  e < 0 ->
  nearest_up s m e = (2 * signed s m + 2 ^ (- e)) / 2 ^ (1 - e).
Proof.
  intros He. unfold nearest_up.
  rewrite Z.shiftr_div_pow2 by lia. now rewrite Z.shiftl_1_l.
Qed.

Lemma nearest_up_bounds s m e :
  e < 0 ->
  let k := nearest_up s m e in
  (2 * k - 1) * 2 ^ (- e) <= 2 * signed s m < (2 * k + 1) * 2 ^ (- e).
Proof.
  intros He k. subst k. rewrite nearest_up_div by exact He.
  set (n := signed s m).
  replace (1 - e) with (Z.succ (- e)) by lia.
  rewrite Z.pow_succ_r by lia.
  assert (HP : 0 < 2 ^ (- e)) by (apply Z.pow_pos_nonneg; lia).
  set (P := 2 ^ (- e)) in *.
  pose proof (Z.div_mod (2 * n + P) (2 * P) ltac:(lia)) as Hdm.
  pose proof (Z.mod_pos_bound (2 * n + P) (2 * P) ltac:(lia)) as Hmod.
  set (q := (2 * n + P) / (2 * P)) in *.
  nia.
Qed.

Lemma nearest_up_small s m e :
  e < 0 -> Z.pos m < 2 ^ 53 -> Z.abs (nearest_up s m e) < 2 ^ 53.
Proof.
  intros He Hm. pose proof (nearest_up_bounds s m e He) as Hb.
  cbv zeta in Hb.
  assert (HP : 2 <= 2 ^ (- e)).
  { change 2 with (2 ^ 1) at 1. apply Z.pow_le_mono_r; lia. }
  set (P := 2 ^ (- e)) in *. set (k := nearest_up s m e) in *.
  assert (Hn : - Z.pos m <= signed s m <= Z.pos m)
    by (destruct s; simpl; lia).
  set (n := signed s m) in *.
  assert (H53 : 0 < 2 ^ 53) by (apply Z.pow_pos_nonneg; lia).
  set (B := 2 ^ 53) in *.
  apply Z.abs_lt. split.
  - destruct (Z.lt_ge_cases (- B) k) as [H | H]; [exact H | exfalso].
    assert ((2 * k + 1) * P <= (- 2 * B + 1) * P) by nia. nia.
  - destruct (Z.lt_ge_cases k B) as [H | H]; [exact H | exfalso].
    assert ((2 * B - 1) * P <= (2 * k - 1) * P) by nia. nia.
Qed.

Lemma digits_value_small m :
  Z.pos (digits2_pos m) <= 53 -> Z.pos m < 2 ^ 53.
Proof.
  intros H. pose proof (digits2_pos_bounds m) as [_ Hhi].
  assert (2 ^ Z.pos (digits2_pos m) <= 2 ^ 53)
    by (apply Z.pow_le_mono_r; lia).
  lia.
Qed.

(** [Math.round] of a finite number with fraction bits is the whole number k
    with k - 1/2 <= x < k + 1/2. *)
Lemma Math_round_nearest x s m e :
  Prim2SF x = S754_finite s m e ->
  exists k : Z,
    (exact (Math_round x) == inject_Z k)%Q /\
    (inject_Z k - (1 # 2) <= exact x)%Q /\
    (exact x < inject_Z k + (1 # 2))%Q.
Proof.
  intros Hx. destruct (Prim2SF_digits x s m e Hx) as [Hd He].
  unfold Math_round. unfold exact at 2 3. rewrite Hx.
  destruct (Z.leb_spec 0 e) as [Hpos | Hneg].
  - exists (signed s m * 2 ^ e).
    unfold exact. rewrite Hx.
    destruct (Z.leb_spec 0 e); [| lia].
    split; [reflexivity |].
    unfold Qle, Qlt, Qminus, Qplus, Qopp, inject_Z. cbn [Qnum Qden]. lia.
  - exists (nearest_up s m e).
    pose proof (nearest_up_bounds s m e Hneg) as Hb. cbv zeta in Hb.
    pose proof (nearest_up_small s m e Hneg (digits_value_small m Hd)) as Hk.
    assert (HP : 0 < 2 ^ (- e)) by (apply Z.pow_pos_nonneg; lia).
    split; [| split].
    + destruct (Z.eqb_spec (nearest_up s m e) 0) as [-> | Hnz].
      * destruct s; reflexivity.
      * now apply exact_of_integer.
    + unfold Qle, Qminus, Qplus, Qopp, inject_Z. cbn [Qnum Qden].
      rewrite Z2Pos.id by exact HP. lia.
    + unfold Qlt, Qminus, Qplus, Qopp, inject_Z. cbn [Qnum Qden].
      rewrite Z2Pos.id by exact HP. lia.
Qed.
End WholeNumbers.

(** ** Finite numbers *)

Lemma isFinite_spec x :
  isFinite x = true <->
  (exists s, Prim2SF x = S754_zero s) \/
  (exists s m e, Prim2SF x = S754_finite s m e).
Proof.
  unfold isFinite, is_finite, is_infinity. fold (Number_isNaN x).
  rewrite eqb_spec, abs_spec.
  pose proof (Number_isNaN_spec x) as Hnan.
  destruct (Prim2SF x) as [s | s | | s m e] eqn:E.
  - destruct (Number_isNaN x); [destruct Hnan as [H _]; discriminate H; easy |].
    split; [intros _; left; now exists s | reflexivity].
  - destruct (Number_isNaN x); [destruct Hnan as [H _]; discriminate H; easy |].
    simpl. split; [discriminate | intros [[? H] | (? & ? & ? & H)]; discriminate].
  - destruct (Number_isNaN x); [| destruct Hnan as [_ H]; discriminate H; easy].
    simpl. split; [discriminate | intros [[? H] | (? & ? & ? & H)]; discriminate].
  - destruct (Number_isNaN x); [destruct Hnan as [H _]; discriminate H; easy |].
    split; [intros _; right; now exists s, m, e | reflexivity].
Qed.


Lemma Math_round_not_finite x : isFinite x = false -> Math_round x = x.
Proof.
  intros H. unfold Math_round.
  destruct (Prim2SF x) as [s | s | | s m e] eqn:E; try reflexivity.
  assert (isFinite x = true) by (apply isFinite_spec; right; now exists s, m, e).
  congruence.
Qed.

(** A number that is not below 0 has no minus sign, unless it is -0. *)
Lemma le_0_sign x s m e :
  le 0%float x = true -> Prim2SF x = S754_finite s m e -> s = false.
Proof.
  unfold le. rewrite leb_spec. intros H E. rewrite E in H.
  destruct s; [discriminate | reflexivity].
Qed.

Section Ties.

#[local] Open Scope Z_scope.

(** Off the exact halves, rounding a negative number to the nearest integer
    is rounding its magnitude. *)
Lemma nearest_up_negative m e :
  e < 0 ->
  (2 * Z.pos m + 2 ^ (- e)) mod 2 ^ (1 - e) <> 0 ->
  nearest_up true m e = - nearest_up false m e.
Proof.
  intros He Hmod. rewrite !nearest_up_div by exact He. unfold signed.
  replace (1 - e) with (Z.succ (- e)) in * by lia.
  rewrite Z.pow_succ_r in * by lia.
  assert (HP : 0 < 2 ^ (- e)) by (apply Z.pow_pos_nonneg; lia).
  set (P := 2 ^ (- e)) in *.
  pose proof (Z.div_mod (2 * Z.pos m + P) (2 * P) ltac:(lia)) as Hdm.
  pose proof (Z.mod_pos_bound (2 * Z.pos m + P) (2 * P) ltac:(lia)) as Hb.
  set (q := (2 * Z.pos m + P) / (2 * P)) in *.
  set (r := (2 * Z.pos m + P) mod (2 * P)) in *.
  symmetry. apply Z.div_unique with (r := 2 * P - r); [lia |].
  change (Z.neg m) with (- Z.pos m). lia.
Qed.

Lemma exact_half_negative x m e :
  Prim2SF x = S754_finite true m e -> e < 0 ->
  (2 * Z.pos m + 2 ^ (- e)) mod 2 ^ (1 - e) = 0 ->
  exists j : Z, (exact x == inject_Z j + (1 # 2))%Q.
Proof.
  intros Hx He Hmod. unfold exact. rewrite Hx.
  destruct (Z.leb_spec 0 e); [lia |].
  replace (1 - e) with (Z.succ (- e)) in * by lia.
  rewrite Z.pow_succ_r in * by lia.
  assert (HP : 0 < 2 ^ (- e)) by (apply Z.pow_pos_nonneg; lia).
  set (P := 2 ^ (- e)) in *.
  pose proof (Z.div_mod (2 * Z.pos m + P) (2 * P) ltac:(lia)) as Hdm.
  rewrite Hmod in Hdm.
  exists (- ((2 * Z.pos m + P) / (2 * P))).
  set (q := (2 * Z.pos m + P) / (2 * P)) in *.
  unfold Qeq, Qplus, inject_Z, signed. cbn [Qnum Qden].
  rewrite Z2Pos.id by exact HP.
  change (Z.neg m) with (- Z.pos m). lia.
Qed.

End Ties.

(** [Math.round] is rounding half away from zero on a number that is not
    below 0, and on a number that is not an exact half. *)
Lemma Math_round_away x :
  le 0%float x = true \/
  (forall j : Z, ~ (exact x == inject_Z j + (1 # 2))%Q) ->
  Math_round x = nearest_away x.
Proof.
  intros H. unfold Math_round, nearest_away.
  destruct (Prim2SF x) as [s | s | | s m e] eqn:E; try reflexivity.
  destruct (Z.leb_spec 0 e) as [| He]; [reflexivity |].
  destruct s; [| reflexivity].
  destruct H as [H | H]; [now apply (le_0_sign x true m e) in H |].
  destruct (Z.eq_dec ((2 * Z.pos m + 2 ^ (- e)) mod 2 ^ (1 - e)) 0)
    as [Hmod | Hmod].
  - destruct (exact_half_negative x m e E He Hmod) as [j Hj].
    now destruct (H j).
  - rewrite (nearest_up_negative m e He Hmod).
    destruct (Z.eqb_spec (nearest_up false m e) 0) as [-> | Hnz];
      [reflexivity |].
    destruct (Z.eqb_spec (- nearest_up false m e) 0); [lia | reflexivity].
Qed.

(** ** Rounding *)

(** C8, as the code has it: [round(x, p)] multiplies x by Math.pow(10, p),
    takes the nearest integer of the product with [Math.round] and divides
    it by the same power, each operation being the one of JavaScript on
    numbers.  [Math.round] takes a finite number y to the whole number k with
    k - 1/2 <= y < k + 1/2: an exact half goes up, towards +Infinity.  This
    is rounding half away from zero when y is not below 0, and when y is not
    an exact half.  The number that is rounded is the product as computed,
    and a product that is not finite is left as it is. *)
Theorem round_rounds_half_up
  (Math_pow : number -> number -> number) (x : number) (p : option number) :
  let power :=
    Math_pow 10%float (match p with Some q => q | None => 2%float end) in
  let scaled := mul x power in
  round Math_pow x p = div (Math_round scaled) power /\
  (isFinite scaled = true ->
   exists k : Z,
     (exact (Math_round scaled) == inject_Z k)%Q /\
     (inject_Z k - (1 # 2) <= exact scaled)%Q /\
     (exact scaled < inject_Z k + (1 # 2))%Q) /\
  (isFinite scaled = false -> Math_round scaled = scaled) /\
  (le 0%float scaled = true \/
   (forall j : Z, ~ (exact scaled == inject_Z j + (1 # 2))%Q) ->
   round Math_pow x p = div (nearest_away scaled) power).
Proof.
  intros power scaled.
  assert (Hround : round Math_pow x p = div (Math_round scaled) power)
    by reflexivity.
  split; [exact Hround |]. split; [| split].
  - intros Hfin. apply isFinite_spec in Hfin.
    destruct Hfin as [[s Hs] | (s & m & e & Hs)].
    + exists 0%Z. unfold Math_round, exact. rewrite Hs. rewrite Hs.
      repeat split; easy.
    + now apply (Math_round_nearest scaled s m e).
  - apply Math_round_not_finite.
  - intros H. rewrite Hround. now rewrite (Math_round_away scaled H).
Qed.

(** C8 fails at x = -0.125 with the default precision 2: the product with
    100 is -12.5, which [Math.round] takes to -12, so the code answers -0.12
    where rounding half away from zero answers -0.13. *)
Lemma round_half_away_fails :
  mul (-0.125)%float (pow_by_product 10%float 2%float) = (-12.5)%float /\
  round pow_by_product (-0.125)%float None = (-0.12)%float /\
  div (nearest_away (-12.5)%float) (pow_by_product 10%float 2%float)
  = (-0.13)%float /\
  ~ round_is_half_away pow_by_product.
Proof.
  split; [vm_compute; reflexivity |].
  split; [vm_compute; reflexivity |].
  split; [vm_compute; reflexivity |].
  intros claim. specialize (claim (-0.125)%float None eq_refl).
  apply (f_equal Prim2SF) in claim. vm_compute in claim. discriminate.
Qed.

(** ** Rounding twice *)

Section Table.

#[local] Open Scope Z_scope.




End Table.






(** ** The scenarios of the specification *)

Example round_1_234 : round pow_by_product 1.234%float None = 1.23%float.
Proof. vm_compute. reflexivity. Qed.

(** 1.005 is the number 1.00499999999999989...; times 100 it is
    100.49999999999999, and [round] answers 1. *)
Example round_1_005 :
  mul 1.005%float 100%float = 100.49999999999999%float /\
  round pow_by_product 1.005%float None = 1%float.
Proof. split; vm_compute; reflexivity. Qed.

(** old = [100, 105, 95, 102, 98], new = [80, 85, 75, 82, 78], with a test
    that answers a p-value below 0.01: FASTER, 20% faster, 80% of the
    time. *)
Example scenario_faster :
  analyseResults pow_by_product (fixed_ttest 0.001%float)
    [100; 105; 95; 102; 98]%float [80; 85; 75; 82; 78]%float (start quiet)
  = (Normal tt,
     printed
       (logged (start quiet)
          ([100; 105; 95; 102; 98]%float, [80; 85; 75; 82; 78]%float,
           Greater))
       [ [Text "The new version appears to be "; Text "FASTER";
          Text " than the old version."];
         [Text "The new version appears to be "; Num 20%float;
          Text "% faster "; Text "(takes "; Num 80%float;
          Text "% of the time of the old version)."] ]) /\
  ratePValue 0.001%float = "Very significant"%string.
Proof. split; vm_compute; reflexivity. Qed.

(** * Further properties of the code *)

(** ** Empty arrays *)

(** X1: [calculateMean] of an empty array is the TypeError of [reduce]; so
    [analyseResults] with an empty old or new set throws before it calls the
    test or prints anything. *)
Theorem analyseResults_empty_set
  (Math_pow : number -> number -> number)
  (ttest : list number -> list number -> alternative -> number)
  (oldSet newSet : list number) (s : process) :
  oldSet = [] \/ newSet = [] ->
  analyseResults Math_pow ttest oldSet newSet s
  = (Throw "TypeError: Reduce of empty array with no initial value", s).
Proof.
  intros [-> | ->]; [reflexivity |].
  destruct oldSet as [| first rest]; reflexivity.
Qed.

Lemma analyseResults_empty_set_witness :
  ([1; 2]%float = [] \/ @nil number = []) /\
  analyseResults pow_by_product (fixed_ttest 0%float) [1; 2]%float []
    (start quiet)
  = (Throw "TypeError: Reduce of empty array with no initial value",
     start quiet).
Proof.
  assert (H : [1; 2]%float = [] \/ @nil number = []) by (right; reflexivity).
  split; [exact H |].
  exact (analyseResults_empty_set pow_by_product (fixed_ttest 0%float)
           [1; 2]%float [] (start quiet) H).
Defined.

(** X2: With the mean given, [calculateStandardDeviation] of an empty array does
    not throw: the variance is 0/0 and the result is NaN.  Without it, the
    call throws as [calculateMean] does. *)
Theorem calculateStandardDeviation_empty
  (Math_pow : number -> number -> number) (m : number) (s : process) :
  calculateStandardDeviation Math_pow [] (Some m) s = (Normal NaN, s) /\
  calculateStandardDeviation Math_pow [] None s
  = (Throw "TypeError: Reduce of empty array with no initial value", s).
Proof. split; reflexivity. Qed.

(** ** Numbers that are not finite *)

Lemma Prim2SF_NaN x : Prim2SF x = S754_nan -> x = NaN.
Proof. intros H. apply Prim2SF_inj. now rewrite H. Qed.

Lemma round_infinity (Math_pow : number -> number -> number)
  (p : option number) (s : bool) :
  let power :=
    Math_pow 10%float (match p with Some q => q | None => 2%float end) in
  let inf := if s then neg Infinity else Infinity in
  round Math_pow inf p =
    match Prim2SF power with
    | S754_finite _ _ _ => inf
    | _ => NaN
    end.
Proof.
  intros power inf. unfold round. fold power.
  assert (Hinf : Prim2SF inf = S754_infinity s) by (now destruct s).
  destruct (Prim2SF power) as [sp | sp | | sp mp ep] eqn:E.
  - assert (Hmul : mul inf power = NaN).
    { apply Prim2SF_NaN. unfold mul. now rewrite mul_spec, Hinf, E. }
    rewrite Hmul. apply Prim2SF_NaN. unfold div.
    rewrite div_spec. reflexivity.
  - assert (Hmul : Prim2SF (mul inf power) = S754_infinity (xorb s sp)).
    { unfold mul. now rewrite mul_spec, Hinf, E. }
    assert (Hround : Math_round (mul inf power) = mul inf power).
    { unfold Math_round. now rewrite Hmul. }
    rewrite Hround. apply Prim2SF_NaN. unfold div.
    now rewrite div_spec, Hmul, E.
  - assert (Hmul : mul inf power = NaN).
    { apply Prim2SF_NaN. unfold mul. now rewrite mul_spec, Hinf, E. }
    rewrite Hmul. apply Prim2SF_NaN. unfold div.
    rewrite div_spec. reflexivity.
  - assert (Hmul : Prim2SF (mul inf power) = S754_infinity (xorb s sp)).
    { unfold mul. now rewrite mul_spec, Hinf, E. }
    assert (Hround : Math_round (mul inf power) = mul inf power).
    { unfold Math_round. now rewrite Hmul. }
    rewrite Hround. apply Prim2SF_inj. unfold div.
    rewrite div_spec, Hmul, E, Hinf. simpl.
    now destruct s, sp.
Qed.

(** X9: NaN goes through [round] unchanged, whatever the precision and the
    engine.  An infinity goes through unchanged when the power of ten is a
    finite number other than 0; when Math.pow(10, p) has overflowed to
    Infinity, fallen to 0 or is NaN, [round] answers NaN. *)
Theorem round_not_finite
  (Math_pow : number -> number -> number) (p : option number) :
  let power :=
    Math_pow 10%float (match p with Some q => q | None => 2%float end) in
  round Math_pow NaN p = NaN /\
  (isFinite power = true -> equal power 0%float = false ->
   round Math_pow Infinity p = Infinity /\
   round Math_pow (neg Infinity) p = neg Infinity) /\
  (isFinite power = false \/ equal power 0%float = true ->
   round Math_pow Infinity p = NaN /\
   round Math_pow (neg Infinity) p = NaN).
Proof.
  intros power.
  pose proof (round_infinity Math_pow p false) as Hpos.
  pose proof (round_infinity Math_pow p true) as Hneg.
  cbv zeta in Hpos, Hneg. fold power in Hpos, Hneg.
  split; [| split].
  - unfold round. fold power.
    assert (Hmul : mul NaN power = NaN).
    { apply Prim2SF_NaN. unfold mul. now rewrite mul_spec. }
    rewrite Hmul. apply Prim2SF_NaN. unfold div. now rewrite div_spec.
  - intros Hfin Hnz. rewrite Hpos, Hneg.
    apply isFinite_spec in Hfin.
    destruct Hfin as [[s Hs] | (s & m & e & Hs)]; rewrite Hs.
    + unfold equal in Hnz. rewrite eqb_spec, Hs in Hnz. discriminate.
    + split; reflexivity.
  - intros H. rewrite Hpos, Hneg.
    destruct (Prim2SF power) as [sp | sp | | sp mp ep] eqn:E;
      try (split; reflexivity).
    destruct H as [H | H].
    + assert (isFinite power = true)
        by (apply isFinite_spec; right; now exists sp, mp, ep).
      congruence.
    + unfold equal in H. rewrite eqb_spec, E in H. destruct sp; discriminate.
Qed.

Lemma round_not_finite_witness :
  isFinite (pow_by_product 10%float 2%float) = true /\
  equal (pow_by_product 10%float 2%float) 0%float = false /\
  round pow_by_product Infinity None = Infinity /\
  isFinite (pow_by_product 10%float 309%float) = false /\
  round pow_by_product Infinity (Some 309%float) = NaN.
Proof.
  assert (H1 : isFinite (pow_by_product 10%float 2%float) = true)
    by (vm_compute; reflexivity).
  assert (H2 : equal (pow_by_product 10%float 2%float) 0%float = false)
    by (vm_compute; reflexivity).
  assert (H3 : isFinite (pow_by_product 10%float 309%float) = false)
    by (vm_compute; reflexivity).
  split; [exact H1 |]. split; [exact H2 |].
  split; [| split; [exact H3 |]].
  - exact (proj1 (proj1 (proj2 (round_not_finite pow_by_product None)) H1 H2)).
  - exact (proj1 (proj2 (proj2 (round_not_finite pow_by_product
                                  (Some 309%float))) (or_introl H3))).
Defined.

(** ** More on [ratePValue] and [analyseResults] *)

(** X10: [ratePValue] answers one of its three ratings on every number, and the
    rating never gets weaker as the p-value gets smaller.  A NaN p-value,
    for which both comparisons are false, is rated "Very significant". *)
Theorem ratePValue_range (p q : number) :
  (ratePValue p = "Not significant"%string \/
   ratePValue p = "Significant"%string \/
   ratePValue p = "Very significant"%string) /\
  ratePValue NaN = "Very significant"%string /\
  (le p q = true ->
   (ratePValue q = "Very significant"%string ->
    ratePValue p = "Very significant"%string) /\
   (ratePValue p = "Not significant"%string ->
    ratePValue q = "Not significant"%string)).
Proof.
  split; [| split].
  - rewrite ratePValue_cases.
    destruct (gt p BASE_SIGNIFICANCE); [now left |].
    destruct (gt p 0.01%float); [right; now left | right; now right].
  - reflexivity.
  - intros Hle.
    assert (Hup : forall c, gt p c = true -> gt q c = true).
    { intros c Hc. unfold gt in *. exact (lt_le_trans _ _ _ Hc Hle). }
    rewrite !ratePValue_cases.
    destruct (gt p BASE_SIGNIFICANCE) eqn:Hp5.
    + rewrite (Hup _ Hp5). split; [discriminate | reflexivity].
    + destruct (gt p 0.01%float) eqn:Hp1.
      * rewrite (Hup _ Hp1).
        destruct (gt q BASE_SIGNIFICANCE); split; discriminate.
      * split; [reflexivity | discriminate].
Qed.

(** X11: On two non-empty arrays [analyseResults] never throws and ends the
    process only through the NaN guard: either the p-value is NaN, the
    standard output is untouched and the status is -1, or the run ends
    normally with the standard error untouched and at least one line
    printed.  It calls the test at most once, always on (old, new) in that
    order, and never changes the options. *)
Theorem analyseResults_outcomes
  (Math_pow : number -> number -> number)
  (ttest : list number -> list number -> alternative -> number)
  (oldSet newSet : list number) (s : process) :
  oldSet <> [] -> newSet <> [] ->
  exists v s1,
    chooseHypothesis ttest oldSet newSet s = (Normal v, s1) /\
    (s1 = s \/ exists alt, s1 = logged s (oldSet, newSet, alt)) /\
    ((pValue v = NaN /\
      analyseResults Math_pow ttest oldSet newSet s
      = (Exit (-1), complained s1 [[Text "Error: p-value is NaN."]])) \/
     (pValue v <> NaN /\
      exists lines,
        lines <> [] /\
        analyseResults Math_pow ttest oldSet newSet s
        = (Normal tt, printed s1 lines))).
Proof.
  intros Ho Hn.
  assert (Hreport : forall v s1,
    (pValue v = NaN /\
     report Math_pow v s1
     = (Exit (-1), complained s1 [[Text "Error: p-value is NaN."]])) \/
    (pValue v <> NaN /\
     exists lines,
       lines <> [] /\ report Math_pow v s1 = (Normal tt, printed s1 lines))).
  { intros v s1. rewrite report_lines.
    destruct (Number_isNaN (pValue v)) eqn:Hp.
    - left. split; [now apply Number_isNaN_NaN | reflexivity].
    - right. split.
      + intros E. apply Number_isNaN_NaN in E. congruence.
      + eexists. split; [| reflexivity].
        intros Hnil. apply app_eq_nil in Hnil. destruct Hnil as [_ Hnil].
        unfold final_lines in Hnil.
        destruct (direction v =? 0)%Z; [discriminate |].
        destruct (gt _ BASE_SIGNIFICANCE); discriminate. }
  destruct (calculateMean_nonempty oldSet s Ho) as [om Hom].
  destruct (calculateMean_nonempty newSet s Hn) as [nm Hnm].
  rewrite analyseResults_unfold.
  rewrite (chooseHypothesis_means ttest _ _ _ _ _ Hom Hnm).
  destruct (lt om nm); [| destruct (gt om nm)];
    do 2 eexists; (split; [reflexivity |]);
    (split; [| apply Hreport]).
  - right; now exists Less.
  - right; now exists Greater.
  - now left.
Qed.

Lemma analyseResults_outcomes_witness :
  [1; 2]%float <> [] /\ [3]%float <> [] /\
  exists v s1,
    chooseHypothesis (fixed_ttest NaN) [1; 2]%float [3]%float (start quiet)
    = (Normal v, s1) /\
    (s1 = start quiet \/
     exists alt, s1 = logged (start quiet) ([1; 2]%float, [3]%float, alt)) /\
    ((pValue v = NaN /\
      analyseResults pow_by_product (fixed_ttest NaN) [1; 2]%float [3]%float
        (start quiet)
      = (Exit (-1), complained s1 [[Text "Error: p-value is NaN."]])) \/
     (pValue v <> NaN /\
      exists lines,
        lines <> [] /\
        analyseResults pow_by_product (fixed_ttest NaN) [1; 2]%float
          [3]%float (start quiet)
        = (Normal tt, printed s1 lines))).
Proof.
  assert (H1 : [1; 2]%float <> []) by discriminate.
  assert (H2 : [3]%float <> []) by discriminate.
  repeat (split; [assumption |]).
  exact (analyseResults_outcomes pow_by_product (fixed_ttest NaN)
           [1; 2]%float [3]%float (start quiet) H1 H2).
Defined.

(** X12: With a p-value above 0.05 the final lines are the same three lines for
    both directions: "no significant difference" and the advice to take more
    samples; none of them shows a number.  (A p-value above 0.05 is the
    answer of a test: the means were distinct, and the direction is not
    0.) *)
Theorem not_significant_report
  (Math_pow : number -> number -> number)
  (ttest : list number -> list number -> alternative -> number)
  (oldSet newSet : list number) (s s1 : process) (v : verdict) :
  chooseHypothesis ttest oldSet newSet s = (Normal v, s1) ->
  gt (pValue v) BASE_SIGNIFICANCE = true ->
  let final :=
    [ [Text "There appears to be no significant difference between both versions."];
      [Text "If you are seeing a high degree of variability in your results, consider"];
      [Text "taking more samples or increasing system stability."] ] in
  direction v <> 0%Z /\
  analyseResults Math_pow ttest oldSet newSet s
  = (Normal tt,
     printed s1 ((if speaks (options s) then verbose_lines v else []) ++ final))
  /\ forallb (fun l => negb (shows_number l)) final = true.
Proof.
  intros Hchoose Hgt final.
  destruct (gt_not_NaN _ _ Hgt) as [Hnan _].
  destruct (chooseHypothesis_p_value _ _ _ _ _ _ Hchoose)
    as (_ & _ & Hopts & [(_ & H0 & _) | (Hnz & _)]).
  { rewrite H0 in Hgt. discriminate. }
  split; [exact Hnz |]. split; [| reflexivity].
  rewrite analyseResults_unfold, Hchoose, report_lines, Hnan, Hopts.
  unfold final_lines. rewrite Hgt.
  destruct (Z.eqb_spec (direction v) 0) as [| _]; [contradiction |].
  simpl negb. rewrite andb_true_r. reflexivity.
Qed.

Lemma not_significant_report_witness :
  gt 0.5%float BASE_SIGNIFICANCE = true /\
  analyseResults pow_by_product (fixed_ttest 0.5%float) [1; 2]%float
    [3]%float (start quiet)
  = (Normal tt,
     printed (logged (start quiet) ([1; 2]%float, [3]%float, Less))
       [ [Text "There appears to be no significant difference between both versions."];
         [Text "If you are seeing a high degree of variability in your results, consider"];
         [Text "taking more samples or increasing system stability."] ]).
Proof.
  assert (H : gt 0.5%float BASE_SIGNIFICANCE = true) by reflexivity.
  split; [exact H |].
  exact (proj1 (proj2
    (not_significant_report pow_by_product (fixed_ttest 0.5%float)
       [1; 2]%float [3]%float (start quiet) _ _ (choose_example _ _) H))).
Defined.

(** ** Values that are not numbers *)

Lemma add_NaN_l x : add NaN x = NaN.
Proof. apply Prim2SF_NaN. unfold add. now rewrite add_spec. Qed.

Lemma add_NaN_r x : add x NaN = NaN.
Proof.
  apply Prim2SF_NaN. unfold add. rewrite add_spec.
  now destruct (Prim2SF x).
Qed.

Lemma div_NaN_l x : div NaN x = NaN.
Proof. apply Prim2SF_NaN. unfold div. now rewrite div_spec. Qed.

Lemma fold_add_NaN values :
  fold_left (fun sum value => add sum value) values NaN = NaN.
Proof.
  induction values as [| x rest IH]; [reflexivity |].
  simpl. now rewrite add_NaN_l.
Qed.

Lemma fold_add_In_NaN values a :
  In NaN values ->
  fold_left (fun sum value => add sum value) values a = NaN.
Proof.
  revert a. induction values as [| x rest IH]; intros a; [intros [] |].
  intros [-> | Hin]; simpl.
  - rewrite add_NaN_r. apply fold_add_NaN.
  - now apply IH.
Qed.

(** The mean of an array that holds NaN is NaN. *)
Lemma calculateMean_NaN values s :
  In NaN values -> calculateMean values s = (Normal NaN, s).
Proof.
  destruct values as [| first rest]; [intros [] |].
  intros Hin. rewrite calculateMean_cons.
  assert (Hsum : fold_left (fun sum value => add sum value) rest first = NaN).
  { destruct Hin as [-> | Hin]; [apply fold_add_NaN |].
    now apply fold_add_In_NaN. }
  now rewrite Hsum, div_NaN_l.
Qed.

(** X26: A value that is not a number (the metric of a page that has no such
    timing is undefined, which the sum turns into NaN) makes the mean of its
    array NaN; NaN is neither below nor above the other mean, so
    [analyseResults] runs no test and prints the single line "There appears
    to be no significant difference between both versions.", whatever the
    other array holds. *)
Theorem NaN_value_reports_no_difference
  (Math_pow : number -> number -> number)
  (ttest : list number -> list number -> alternative -> number)
  (oldSet newSet : list number) (s : process) :
  oldSet <> [] -> newSet <> [] ->
  In NaN oldSet \/ In NaN newSet ->
  (In NaN oldSet -> calculateMean oldSet s = (Normal NaN, s)) /\
  (In NaN newSet -> calculateMean newSet s = (Normal NaN, s)) /\
  analyseResults Math_pow ttest oldSet newSet s
  = (Normal tt, printed s [no_difference_line]) /\
  tests (snd (analyseResults Math_pow ttest oldSet newSet s)) = tests s.
Proof.
  intros Ho Hn Hin.
  split; [apply calculateMean_NaN |]. split; [apply calculateMean_NaN |].
  destruct (calculateMean_nonempty oldSet s Ho) as [om Hom].
  destruct (calculateMean_nonempty newSet s Hn) as [nm Hnm].
  assert (Hnan : Number_isNaN om = true \/ Number_isNaN nm = true).
  { destruct Hin as [Hin | Hin]; [left | right];
      rewrite (calculateMean_NaN _ s Hin) in *; [inversion Hom | inversion Hnm];
      reflexivity. }
  assert (Hlt : lt om nm = false).
  { destruct (lt om nm) eqn:E; [| reflexivity].
    destruct (gt_not_NaN nm om E). destruct Hnan; congruence. }
  assert (Hgt : gt om nm = false).
  { destruct (gt om nm) eqn:E; [| reflexivity].
    destruct (gt_not_NaN om nm E). destruct Hnan; congruence. }
  assert (Hrun : analyseResults Math_pow ttest oldSet newSet s
                 = (Normal tt, printed s [no_difference_line])).
  { rewrite analyseResults_unfold.
    rewrite (chooseHypothesis_means ttest _ _ _ _ _ Hom Hnm), Hlt, Hgt.
    rewrite report_lines. cbn [pValue direction]. unfold final_lines.
    cbn [direction]. simpl. now rewrite andb_false_r. }
  split; [exact Hrun | now rewrite Hrun].
Qed.

Lemma NaN_value_reports_no_difference_witness :
  [NaN; 5%float] <> [] /\ [100%float] <> [] /\
  (In NaN [NaN; 5%float] \/ In NaN [100%float]) /\
  analyseResults pow_by_product (fixed_ttest 0.01%float) [NaN; 5%float]
    [100%float] (start quiet)
  = (Normal tt, printed (start quiet) [no_difference_line]).
Proof.
  assert (H1 : [NaN; 5%float] <> []) by discriminate.
  assert (H2 : [100%float] <> []) by discriminate.
  assert (H3 : In NaN [NaN; 5%float] \/ In NaN [100%float])
    by (left; left; reflexivity).
  repeat (split; [assumption |]).
  exact (proj1 (proj2 (proj2
    (NaN_value_reports_no_difference pow_by_product (fixed_ttest 0.01%float)
       [NaN; 5%float] [100%float] (start quiet) H1 H2 H3)))).
Defined.

(** ** output.js *)

(** X14: [verbose] prints before any call of [setOutputOptions] (the options are
    undefined then); after [setOutputOptions(opt)] it prints exactly when
    the verbose flag of [opt] is set, and the later of two calls of
    [setOutputOptions] is the one that counts.  [verbose] writes nothing to
    the standard error. *)
Theorem verbose_follows_setOutputOptions
  (opt opt' : outputOptions) (l : line) (s : process) :
  verbose l (start None) = (Normal tt, printed (start None) [l]) /\
  (setOutputOptions opt ;; verbose l) s
  = (Normal tt,
     printed (with_options (Some opt) s)
       (if verbose_flag opt then [l] else [])) /\
  (setOutputOptions opt' ;; setOutputOptions opt ;; verbose l) s
  = (setOutputOptions opt ;; verbose l) s /\
  stderr (snd (verbose l s)) = stderr s.
Proof.
  split; [reflexivity |].
  assert (H : forall t, (setOutputOptions opt ;; verbose l) t
                        = (Normal tt,
                           printed (with_options (Some opt) t)
                             (if verbose_flag opt then [l] else []))).
  { intros t. unfold bind, setOutputOptions. rewrite verbose_printed.
    reflexivity. }
  split; [apply H |]. split.
  - unfold bind at 1. unfold setOutputOptions at 1. cbv iota beta.
    rewrite !H. reflexivity.
  - rewrite verbose_printed. reflexivity.
Qed.

(** ** web-vitals.js *)

Lemma deliver_disconnected w es :
  lcpObserver w = false -> clsObserver w = false ->
  largestContentfulPaint (fold_left deliver es w) = largestContentfulPaint w /\
  cumulativeLayoutShiftScore (fold_left deliver es w)
  = cumulativeLayoutShiftScore w /\
  pageConsole (fold_left deliver es w) = pageConsole w.
Proof.
  revert w; induction es as [| e rest IH]; intros w Hl Hc; [easy |].
  simpl fold_left.
  assert (Hsame : deliver w e = w \/ deliver w e = onVisibilityChange hidden w).
  { destruct e as [entries | entries | [|]]; simpl; rewrite ?Hl, ?Hc; auto. }
  destruct Hsame as [-> | ->]; [now apply IH |].
  destruct (IH (onVisibilityChange hidden w) eq_refl eq_refl) as (-> & -> & ->).
  easy.
Qed.

Lemma onLayoutShift_score entries w :
  cumulativeLayoutShiftScore (onLayoutShift entries w)
  = fold_left add (map value (counted entries)) (cumulativeLayoutShiftScore w)
  /\ pageConsole (onLayoutShift entries w)
     = pageConsole w
       ++ map (fun entry => [Text "New observer entry for cls: ";
                             Num (value entry)]) (counted entries)
  /\ largestContentfulPaint (onLayoutShift entries w) = largestContentfulPaint w
  /\ lcpObserver (onLayoutShift entries w) = lcpObserver w
  /\ clsObserver (onLayoutShift entries w) = clsObserver w.
Proof.
  unfold onLayoutShift.
  revert w; induction entries as [| entry rest IH]; intros w.
  - simpl. now rewrite app_nil_r.
  - simpl fold_left. destruct (IH (onLayoutShiftEntry w entry))
      as (-> & -> & -> & -> & ->).
    unfold onLayoutShiftEntry, counted. simpl filter.
    destruct (hadRecentInput entry); simpl; [easy |].
    now rewrite <- app_assoc.
Qed.

Lemma page_after_score (w : window)
  (es : list pageEvent) :
  let shifts := counted (layout_shifts (while_visible es)) in
  cumulativeLayoutShiftScore (page_after w es)
  = fold_left add (map value shifts) (0%float) /\
  pageConsole (page_after w es)
  = pageConsole w
    ++ map (fun entry => [Text "New observer entry for cls: ";
                          Num (value entry)]) shifts.
Proof.
  intros shifts. subst shifts. unfold page_after.
  set (w0 := calculateCLS (calculateLCP w)).
  change (0%float) with (cumulativeLayoutShiftScore w0).
  change (pageConsole w) with (pageConsole w0).
  assert (Hc : clsObserver w0 = true) by reflexivity.
  clearbody w0. revert w0 Hc.
  induction es as [| e rest IH]; intros w0 Hc.
  - simpl. now rewrite app_nil_r.
  - simpl fold_left. destruct e as [entries | entries | [|]].
    + assert (Hd : cumulativeLayoutShiftScore (deliver w0 (LargestContentfulPaint entries))
                   = cumulativeLayoutShiftScore w0 /\
                   pageConsole (deliver w0 (LargestContentfulPaint entries))
                   = pageConsole w0 /\
                   clsObserver (deliver w0 (LargestContentfulPaint entries)) = true).
      { simpl. destruct (lcpObserver w0); [| easy].
        unfold onLargestContentfulPaint.
        destruct (last (map Some entries) None); easy. }
      destruct Hd as (Hs & Hp & Ho).
      simpl while_visible. simpl layout_shifts.
      destruct (IH _ Ho) as [-> ->]. now rewrite Hs, Hp.
    + simpl deliver. rewrite Hc.
      destruct (onLayoutShift_score entries w0) as (Hs & Hp & _ & _ & Ho).
      simpl while_visible. simpl layout_shifts.
      destruct (IH (onLayoutShift entries w0)) as [-> ->]; [congruence |].
      unfold counted in *. rewrite filter_app, map_app, fold_left_app.
      rewrite Hs, Hp, map_app, app_assoc. easy.
    + simpl while_visible. simpl layout_shifts.
      now destruct (IH (deliver w0 (VisibilityChange visible)) Hc) as [-> ->].
    + simpl while_visible. simpl layout_shifts.
      change (deliver w0 (VisibilityChange hidden))
        with (onVisibilityChange hidden w0).
      destruct (deliver_disconnected (onVisibilityChange hidden w0) rest
                  eq_refl eq_refl) as (_ & -> & ->).
      simpl. now rewrite app_nil_r.
Qed.

Lemma last_cons_some {A} (l : list A) (x : A) :
  exists z, last (map Some (x :: l)) None = Some z.
Proof.
  revert x; induction l as [| y l IH]; intros x; [now exists x |].
  destruct (IH y) as [z Hz]. exists z. exact Hz.
Qed.

Lemma last_map_some_cons {A} (x : A) (l : list A) :
  last (map Some (x :: l)) None
  = match last (map Some l) None with
    | Some y => Some y
    | None => Some x
    end.
Proof.
  destruct l as [| y l]; [reflexivity |].
  change (last (map Some (x :: y :: l)) None)
    with (last (map Some (y :: l)) None).
  destruct (last_cons_some l y) as [z ->]. reflexivity.
Qed.

Lemma last_app_some {A} (a b : list A) :
  last (map Some (a ++ b)) None
  = match last (map Some b) None with
    | Some x => Some x
    | None => last (map Some a) None
    end.
Proof.
  induction a as [| x a IH].
  - simpl app. destruct (last (map Some b) None); reflexivity.
  - rewrite <- app_comm_cons, !last_map_some_cons, IH.
    destruct (last (map Some b) None), (last (map Some a) None); reflexivity.
Qed.

Lemma page_after_paint (w : window)
  (es : list pageEvent) :
  match last (map Some (lcp_entries (while_visible es))) None with
  | None => largestContentfulPaint (page_after w es) = 0%float
  | Some entry =>
      largestContentfulPaint (page_after w es)
      = or_else (renderTime entry) (loadTime entry) /\
      (Number_isNaN (renderTime entry) = true \/
       equal (renderTime entry) 0%float = true ->
       largestContentfulPaint (page_after w es) = loadTime entry)
  end.
Proof.
  assert (Hor : forall a b,
            Number_isNaN a = true \/ equal a 0%float = true ->
            or_else a b = b).
  { intros a b H. unfold or_else.
    destruct (Number_isNaN a); [reflexivity |].
    destruct H as [H | ->]; [discriminate | reflexivity]. }
  unfold page_after.
  set (w0 := calculateCLS (calculateLCP w)).
  assert (Hgen : forall w1, lcpObserver w1 = true ->
    largestContentfulPaint (fold_left deliver es w1)
    = match last (map Some (lcp_entries (while_visible es))) None with
      | None => largestContentfulPaint w1
      | Some entry => or_else (renderTime entry) (loadTime entry)
      end).
  { induction es as [| e rest IH]; intros w1 Hl; [reflexivity |].
    simpl fold_left. destruct e as [entries | entries | [|]].
    - simpl while_visible. simpl lcp_entries. rewrite last_app_some.
      simpl deliver. rewrite Hl. unfold onLargestContentfulPaint.
      destruct (last (map Some entries) None) as [lastEntry |] eqn:Hlast.
      + rewrite IH by exact Hl.
        destruct (last (map Some (lcp_entries (while_visible rest))) None);
          reflexivity.
      + rewrite IH by exact Hl.
        destruct (last (map Some (lcp_entries (while_visible rest))) None);
          reflexivity.
    - simpl while_visible. simpl lcp_entries.
      rewrite IH.
      + simpl deliver. destruct (clsObserver w1); [| reflexivity].
        destruct (onLayoutShift_score entries w1) as (_ & _ & -> & _ & _).
        reflexivity.
      + simpl deliver. destruct (clsObserver w1); [| exact Hl].
        destruct (onLayoutShift_score entries w1) as (_ & _ & _ & -> & _).
        exact Hl.
    - simpl while_visible. simpl lcp_entries. now rewrite IH.
    - simpl while_visible. simpl lcp_entries.
      change (deliver w1 (VisibilityChange hidden))
        with (onVisibilityChange hidden w1).
      now destruct (deliver_disconnected (onVisibilityChange hidden w1) rest
                      eq_refl eq_refl) as (-> & _ & _). }
  rewrite (Hgen w0 eq_refl).
  destruct (last (map Some (lcp_entries (while_visible es))) None);
    [| reflexivity].
  split; [reflexivity | apply Hor].
Qed.

(** ** The main file: objects *)

Lemma get_set_property o key v :
  get (set_property o key v) key = v.
Proof.
  induction o as [| [k old] rest IH]; simpl.
  - now rewrite String.eqb_refl.
  - destruct (String.eqb k key) eqn:Hk; simpl; rewrite Hk; [reflexivity | exact IH].
Qed.

Lemma get_set_property_other o key key' v :
  key' <> key -> get (set_property o key v) key' = get o key'.
Proof.
  intros Hneq. induction o as [| [k old] rest IH]; simpl.
  - destruct (String.eqb_spec key key'); [congruence | reflexivity].
  - destruct (String.eqb_spec k key) as [-> | Hk]; simpl.
    + destruct (String.eqb_spec key key'); [congruence | reflexivity].
    + destruct (String.eqb k key'); [reflexivity | exact IH].
Qed.

Lemma paint_object_from entries o key :
  get (fold_left
         (fun obj entry => set_property obj (name entry) (Some (startTime entry)))
         entries o) key
  = match last (map Some (filter (fun entry => String.eqb (name entry) key)
                            entries)) None with
    | Some entry => Some (startTime entry)
    | None => get o key
    end.
Proof.
  revert o; induction entries as [| entry rest IH]; intros o; [reflexivity |].
  simpl fold_left. rewrite IH. simpl filter.
  destruct (String.eqb_spec (name entry) key) as [Hk | Hk].
  - rewrite last_map_some_cons.
    destruct (last (map Some (filter _ rest)) None); [reflexivity |].
    rewrite Hk. apply get_set_property.
  - destruct (last (map Some (filter _ rest)) None); [reflexivity |].
    apply get_set_property_other. congruence.
Qed.

(** X17: The "fp" and "fcp" timings of a direct measurement are the start times
    of the last paint entries named "first-paint" and
    "first-contentful-paint"; each is undefined when the page has no such
    entry. *)
Theorem direct_paint_timings (page : loadedPage) :
  let named n := filter (fun entry => String.eqb (name entry) n)
                   (paintEntries page) in
  calculateMetric (direct_timings page) "fp"
  = option_map startTime (last (map Some (named "first-paint"%string)) None) /\
  calculateMetric (direct_timings page) "fcp"
  = option_map startTime
      (last (map Some (named "first-contentful-paint"%string)) None).
Proof.
  intros named. unfold calculateMetric, direct_timings, paint_object. simpl get.
  rewrite !paint_object_from. subst named. cbv beta.
  split;
    match goal with
    | |- context [last ?l None] => destruct (last l None)
    end; reflexivity.
Qed.

(** X15: The score that [calculateCLS] leaves in [window] is the sum, in order,
    of the values of the layout shifts without recent input that were
    delivered before the page first got hidden, however the browser groups
    them into callbacks, and the page console has one line for each of them.
    This sum is the "cls" metric of a direct measurement. *)
Theorem cumulativeLayoutShiftScore_is_the_sum (w : window)
  (es : list pageEvent) (page : loadedPage) :
  let score es :=
    fold_left add (map value (counted (layout_shifts (while_visible es))))
      (0%float) in
  cumulativeLayoutShiftScore (page_after w es) = score es /\
  pageConsole (page_after w es)
  = pageConsole w
    ++ map (fun entry => [Text "New observer entry for cls: ";
                          Num (value entry)])
         (counted (layout_shifts (while_visible es))) /\
  calculateMetric (direct_timings page) "cls" = Some (score (pageEvents page)).
Proof.
  intros score. destruct (page_after_score w es) as [Hscore Hconsole].
  split; [exact Hscore |]. split; [exact Hconsole |].
  unfold calculateMetric, direct_timings. simpl get. f_equal.
  apply (page_after_score new_document (pageEvents page)).
Qed.

(** X16: The value that [calculateLCP] leaves in [window] comes from the last
    entry delivered before the page first got hidden: its renderTime, or its
    loadTime when the renderTime is 0, -0 or NaN; it is 0 when no entry was
    delivered.  This value is the "lcp" metric of a direct measurement. *)
Theorem largestContentfulPaint_is_the_last_entry (w : window)
  (es : list pageEvent) (page : loadedPage) :
  let paint es :=
    match last (map Some (lcp_entries (while_visible es))) None with
    | None => 0%float
    | Some entry => or_else (renderTime entry) (loadTime entry)
    end in
  largestContentfulPaint (page_after w es) = paint es /\
  (forall entry,
     last (map Some (lcp_entries (while_visible es))) None = Some entry ->
     Number_isNaN (renderTime entry) = true \/
     equal (renderTime entry) 0%float = true ->
     largestContentfulPaint (page_after w es) = loadTime entry) /\
  calculateMetric (direct_timings page) "lcp" = Some (paint (pageEvents page)).
Proof.
  intros paint.
  assert (H : forall w0 es0, largestContentfulPaint (page_after w0 es0) = paint es0).
  { intros w0 es0. pose proof (page_after_paint w0 es0) as H0. subst paint.
    cbv beta.
    destruct (last (map Some (lcp_entries (while_visible es0))) None);
      [apply H0 | exact H0]. }
  split; [apply H |]. split.
  - intros entry Hlast Hzero. pose proof (page_after_paint w es) as H0.
    rewrite Hlast in H0. now apply H0.
  - unfold calculateMetric, direct_timings. simpl get. f_equal. apply H.
Qed.

(** X18: Among the nine choices of the metric option, the timings that
    [loadAndMeasure] returns have the chosen metric as a property exactly
    when the test at the head of the main method lets the run through: "tti"
    and "tbt" are missing from a direct measurement, and nothing else is
    ever missing. *)
Theorem measurable_metrics
  (browser : list event -> string -> visit) (opts : argv)
  (u : string) (w w' : world) (timings : object) :
  In (metric opts) metric_choices ->
  loadAndMeasure browser opts u w = (Normal timings, w') ->
  (In (metric opts) (map fst timings) <-> needs_lighthouse opts = false).
Proof.
  intros Hchoice Hrun.
  unfold loadAndMeasure, loadAndMeasureWithLighthouse, loadAndMeasureDirectly,
    task_bind, goto, lift, task_ret, needs_lighthouse in *.
  destruct (lighthouse opts); simpl negb; cbv iota in Hrun |- *;
    destruct (browser (history w) u) as [e | page result];
    try discriminate;
    [destruct (find has_interactive (metrics_items result));
       [| discriminate] |];
    inversion Hrun; subst timings w'; clear Hrun;
    unfold metric_choices in Hchoice; simpl in Hchoice;
    repeat (destruct Hchoice as [Hm | Hchoice];
            [rewrite <- Hm; clear Hm;
             split; intros H;
             first [ reflexivity
                   | solve [simpl; repeat (first [left; reflexivity | right])]
                   | (simpl in H; discriminate H)
                   | (simpl in H; exfalso;
                      repeat (destruct H as [H | H]; [discriminate H |]);
                      exact H) ] |]);
    destruct Hchoice.
Qed.

Lemma measurable_metrics_witness :
  In (metric (default_options "http://a.test" None)) metric_choices /\
  loadAndMeasure (steady_browser (100%float)) (default_options "http://a.test" None)
    "http://a.test" boot
  = (Normal (direct_timings (steady_page (100%float))),
     after boot [Visit "http://a.test" true]) /\
  (In (metric (default_options "http://a.test" None))
      (map fst (direct_timings (steady_page (100%float))))
   <-> needs_lighthouse (default_options "http://a.test" None) = false).
Proof.
  assert (H1 : In (metric (default_options "http://a.test" None)) metric_choices)
    by (simpl; tauto).
  assert (H2 : loadAndMeasure (steady_browser (100%float))
                 (default_options "http://a.test" None) "http://a.test" boot
               = (Normal (direct_timings (steady_page (100%float))),
                  after boot [Visit "http://a.test" true])) by reflexivity.
  repeat (split; [assumption |]).
  exact (measurable_metrics (steady_browser (100%float))
           (default_options "http://a.test" None) "http://a.test" boot _ _
           H1 H2).
Defined.

(** ** The main file: one measurement set *)

Lemma handleFetchError_run {A} e p :
  @handleFetchError A e p = (Exit (-1), complained p (fetch_error_lines e)).
Proof.
  unfold handleFetchError, bind, console_error, process_exit, complained,
    fetch_error_lines.
  simpl. now rewrite <- !app_assoc.
Qed.

Section ToolFacts.

Variable Math_pow : number -> number -> number.

Variable browser : list event -> string -> visit.
Variable opts : argv.

Lemma load_run u w :
  load browser u w =
    match browser (history w) u with
    | Unreachable e =>
        (Exit (-1),
         {| node := complained (node w) (fetch_error_lines e);
            history := history w ++ [Visit u false] |})
    | Reached _ _ => (Normal tt, after w [Visit u false])
    end.
Proof.
  unfold load, task_bind, goto, lift, task_ret.
  destruct (browser (history w) u); [| reflexivity].
  simpl node. now rewrite handleFetchError_run.
Qed.

Lemma loadAndMeasure_run u w :
  loadAndMeasure browser opts u w =
    match browser (history w) u with
    | Unreachable e =>
        (Exit (-1),
         {| node := complained (node w) (fetch_error_lines e);
            history := history w ++ [Visit u true] |})
    | Reached page result =>
        if lighthouse opts then
          match find has_interactive (metrics_items result) with
          | None =>
              (Throw
                 "TypeError: Cannot read properties of undefined (reading 'observedFirstPaint')",
               after w [Visit u true])
          | Some item =>
              (Normal (lighthouse_timings result item), after w [Visit u true])
          end
        else (Normal (direct_timings page), after w [Visit u true])
    end.
Proof.
  unfold loadAndMeasure, loadAndMeasureWithLighthouse, loadAndMeasureDirectly,
    task_bind, goto, lift, task_ret.
  destruct (lighthouse opts), (browser (history w) u) as [e | page result];
    simpl node; rewrite ?handleFetchError_run; try reflexivity.
  destruct (find has_interactive (metrics_items result)); reflexivity.
Qed.

Lemma throwaway_loads_step count u w :
  throwaway_loads browser (S count) u w =
    match browser (history w) u with
    | Unreachable e =>
        (Exit (-1),
         {| node := complained (node w) (fetch_error_lines e);
            history := history w ++ [Visit u false] |})
    | Reached _ _ => throwaway_loads browser count u (after w [Visit u false])
    end.
Proof.
  simpl throwaway_loads. unfold task_bind. rewrite load_run.
  destruct (browser (history w) u); reflexivity.
Qed.

Lemma after_after w es es' : after (after w es) es' = after w (es ++ es').
Proof. unfold after; simpl. now rewrite app_assoc. Qed.

Lemma measurements_step count i u ts w :
  measurements browser opts (S count) i u ts w =
    match browser (history w) u with
    | Unreachable e =>
        (Exit (-1),
         {| node := complained (node w) (fetch_error_lines e);
            history := history w ++ [Visit u true] |})
    | Reached page result =>
        if lighthouse opts then
          match find has_interactive (metrics_items result) with
          | None =>
              (Throw
                 "TypeError: Cannot read properties of undefined (reading 'observedFirstPaint')",
               after w [Visit u true])
          | Some item =>
              measurements browser opts count (i + 1) u
                (ts ++ [lighthouse_timings result item])
                (after w [Visit u true; BarUpdate (i + 1)])
          end
        else
          measurements browser opts count (i + 1) u
            (ts ++ [direct_timings page])
            (after w [Visit u true; BarUpdate (i + 1)])
    end.
Proof.
  simpl measurements. unfold task_bind at 1. rewrite loadAndMeasure_run.
  assert (Hnext : forall timings,
    task_bind (happens (BarUpdate (i + 1)))
      (fun _ => measurements browser opts count (i + 1) u (ts ++ [timings]))
      (after w [Visit u true])
    = measurements browser opts count (i + 1) u (ts ++ [timings])
        (after w [Visit u true; BarUpdate (i + 1)])).
  { intros timings. unfold task_bind, happens.
    change {| node := node (after w [Visit u true]);
              history := history (after w [Visit u true])
                         ++ [BarUpdate (i + 1)] |}
      with (after (after w [Visit u true]) [BarUpdate (i + 1)]).
    now rewrite after_after. }
  destruct (browser (history w) u) as [e | page result]; [reflexivity |].
  destruct (lighthouse opts); [| apply Hnext].
  destruct (find has_interactive (metrics_items result));
    [apply Hnext | reflexivity].
Qed.

Lemma throwaway_loads_outcome count u w :
  (exists w', throwaway_loads browser count u w = (Normal tt, w') /\
              node w' = node w) \/
  aborted w (throwaway_loads browser count u w).
Proof.
  revert w; induction count as [| count IH]; intros w.
  - left. now exists w.
  - rewrite throwaway_loads_step.
    destruct (browser (history w) u) as [e | page result].
    + right. unfold aborted. simpl. split; [reflexivity | now exists e].
    + apply (IH (after w [Visit u false])).
Qed.

Lemma measurements_outcome count i u ts w :
  (exists ts' w',
     measurements browser opts count i u ts w = (Normal ts', w') /\
     node w' = node w /\
     List.length ts' = (List.length ts + count)%nat) \/
  aborted w (measurements browser opts count i u ts w).
Proof.
  revert i ts w; induction count as [| count IH]; intros i ts w.
  - left. exists ts, w. repeat split. simpl. lia.
  - rewrite measurements_step.
    assert (Hstep : forall timings,
      (exists ts' w',
         measurements browser opts count (i + 1) u (ts ++ [timings])
           (after w [Visit u true; BarUpdate (i + 1)]) = (Normal ts', w') /\
         node w' = node w /\
         List.length ts' = (List.length ts + S count)%nat) \/
      aborted w
        (measurements browser opts count (i + 1) u (ts ++ [timings])
           (after w [Visit u true; BarUpdate (i + 1)]))).
    { intros timings.
      destruct (IH (i + 1)%Z (ts ++ [timings])
                  (after w [Visit u true; BarUpdate (i + 1)]))
        as [(ts' & w' & Hrun & Hnode & Hlen) | Hab].
      - left. exists ts', w'. repeat split; [exact Hrun | exact Hnode |].
        rewrite Hlen, length_app. simpl. lia.
      - right. exact Hab. }
    destruct (browser (history w) u) as [e | page result].
    + right. unfold aborted. simpl. split; [reflexivity | now exists e].
    + destruct (lighthouse opts); [| apply Hstep].
      destruct (find has_interactive (metrics_items result));
        [apply Hstep |].
      right. unfold aborted. reflexivity.
Qed.

Lemma calculateMean_run (values : list number) s :
  calculateMean values s =
    match values with
    | [] => (Throw "TypeError: Reduce of empty array with no initial value", s)
    | first :: rest =>
        (Normal (div (fold_left (fun sum value => add sum value) rest first)
                   (length_of values)), s)
    end.
Proof. destruct values; reflexivity. Qed.

Lemma aborted_bind {A B} (w w0 : world) (m : task A) (k : A -> task B) :
  node w0 = node w -> aborted w0 (m w0) -> aborted w (task_bind m k w0).
Proof.
  intros Hnode. unfold aborted, task_bind.
  destruct (m w0) as [[a | status | error] w']; simpl;
    [intros [] | rewrite Hnode; easy | rewrite Hnode; easy].
Qed.

(** [performMeasurementSet] once its two loops have returned: the bar stops,
    and the rest computes and prints; on an empty array it throws before it
    prints. *)
Lemma performMeasurementSet_after_loops
  (timingSet ts' : list object) (versionString u : string) (w w1 w2 : world) :
  throwaway_loads browser (Z.to_nat (throwaway opts)) u
    (after w [BarStart (repeat opts) 0]) = (Normal tt, w1) ->
  measurements browser opts (Z.to_nat (repeat opts)) 0 u timingSet w1
  = (Normal ts', w2) ->
  let values := map (fun timings => calculateMetric timings (metric opts)) ts' in
  exists c lines,
    performMeasurementSet Math_pow browser opts timingSet versionString u w
    = (c, {| node := printed (node w2) lines;
             history := history w2 ++ [BarStop] |}) /\
    (ts' = [] ->
     c = Throw "TypeError: Reduce of empty array with no initial value" /\
     lines = []) /\
    (ts' <> [] ->
     c = Normal (ts', values) /\
     exists mean deviation,
       (forall s, calculateMean (map ToNumber values) s = (Normal mean, s)) /\
       (forall s, calculateStandardDeviation Math_pow (map ToNumber values) (Some mean) s
                  = (Normal deviation, s)) /\
       lines = summary_lines Math_pow opts (speaks (options (node w2))) versionString u
                 values mean deviation).
Proof.
  intros Hrun Hrun2 values.
  unfold performMeasurementSet.
  unfold task_bind at 1. unfold happens at 1. cbv beta iota.
  change {| node := node w; history := history w ++ [BarStart (repeat opts) 0] |}
    with (after w [BarStart (repeat opts) 0]).
  unfold task_bind at 1. rewrite Hrun. cbv beta iota.
  unfold task_bind at 1. rewrite Hrun2. cbv beta iota.
  unfold task_bind at 1. unfold happens at 1. cbv beta iota.
  unfold lift. simpl node. simpl history.
  destruct ts' as [| t ts''].
  - exists (Throw "TypeError: Reduce of empty array with no initial value"), [].
    rewrite printed_nil. split; [reflexivity |]. split; [easy | congruence].
  - fold values.
    assert (Hmean : exists mean,
              forall s, calculateMean (map ToNumber values) s = (Normal mean, s)).
    { eexists. intros s. rewrite calculateMean_run. subst values. simpl map.
      reflexivity. }
    destruct Hmean as [mean Hmean].
    assert (Hdev : exists deviation,
              forall s, calculateStandardDeviation Math_pow (map ToNumber values)
                          (Some mean) s = (Normal deviation, s)).
    { eexists. intros s. reflexivity. }
    destruct Hdev as [deviation Hdev].
    exists (Normal (t :: ts'', values)),
      (summary_lines Math_pow opts (speaks (options (node w2))) versionString u values
         mean deviation).
    split.
    + unfold bind.
      repeat first [ rewrite Hmean
                   | rewrite console_log_printed
                   | rewrite verbose_printed
                   | rewrite Hdev
                   | progress cbv iota beta ].
      rewrite !printed_printed. reflexivity.
    + split; [discriminate | intros _]. split; [reflexivity |].
      now exists mean, deviation.
Qed.

(** The two ways a measurement set ends. *)
Lemma performMeasurementSet_outcome
  (timingSet : list object) (versionString u : string) (w : world) :
  let r := performMeasurementSet Math_pow browser opts timingSet versionString u w in
  (exists timingSet' values mean deviation w',
     r = (Normal (timingSet', values), w') /\
     values
     = map (fun timings => calculateMetric timings (metric opts)) timingSet' /\
     List.length timingSet'
     = (List.length timingSet + Z.to_nat (repeat opts))%nat /\
     timingSet' <> [] /\
     calculateMean (map ToNumber values) (node w) = (Normal mean, node w) /\
     calculateStandardDeviation Math_pow (map ToNumber values) (Some mean) (node w)
     = (Normal deviation, node w) /\
     node w'
     = printed (node w)
         (summary_lines Math_pow opts (speaks (options (node w))) versionString u
            values mean deviation)) \/
  aborted w r.
Proof.
  intros r. subst r.
  destruct (throwaway_loads_outcome (Z.to_nat (throwaway opts)) u
              (after w [BarStart (repeat opts) 0]))
    as [(w1 & Hrun & Hnode) | Hab].
  2: { right. unfold performMeasurementSet.
       unfold task_bind at 1. unfold happens at 1. cbv beta iota.
       now apply aborted_bind. }
  destruct (measurements_outcome (Z.to_nat (repeat opts)) 0 u timingSet w1)
    as [(ts' & w2 & Hrun2 & Hnode2 & Hlen) | Hab].
  2: { right. unfold performMeasurementSet.
       unfold task_bind at 1. unfold happens at 1. cbv beta iota.
       unfold task_bind at 1.
       change {| node := node w;
                 history := history w ++ [BarStart (repeat opts) 0] |}
         with (after w [BarStart (repeat opts) 0]).
       rewrite Hrun. cbv beta iota.
       apply aborted_bind; [exact Hnode | exact Hab]. }
  assert (Hn : node w2 = node w) by (rewrite Hnode2, Hnode; reflexivity).
  destruct (performMeasurementSet_after_loops timingSet ts' versionString u
              w w1 w2 Hrun Hrun2) as (c & lines & Heq & Hempty & Hfull).
  rewrite Heq. destruct ts' as [| t ts''].
  - right. destruct (Hempty eq_refl) as [-> ->].
    unfold aborted. simpl. now rewrite printed_nil.
  - left. destruct Hfull as (-> & mean & deviation & Hmean & Hdev & ->);
      [discriminate |].
    exists (t :: ts''),
      (map (fun timings => calculateMetric timings (metric opts)) (t :: ts'')),
      mean, deviation.
    eexists. split; [reflexivity |].
    rewrite Hn.
    split; [reflexivity |]. split; [exact Hlen |]. split; [discriminate |].
    split; [apply Hmean |]. split; [apply Hdev | reflexivity].
Qed.

Lemma aborted_stdout {A} (w : world) (x : completion A * world) :
  aborted w x -> stdout (node (snd x)) = stdout (node w).
Proof.
  destruct x as [[a | status | error] w']; unfold aborted; simpl.
  - intros [].
  - intros (_ & e & ->). reflexivity.
  - now intros ->.
Qed.

(** X19: A measurement set prints its summary in full or not at all.  Either it
    returns, with one value for each element of the array, which then holds
    [repeat] more elements than before and is not empty, and what it wrote
    is the summary, with the mean and the standard deviation of the values,
    on the standard output; or it ended early: through [handleFetchError],
    with status -1 and the four lines of the error on the standard error, or
    by an exception, and the standard output is as it was. *)
Theorem performMeasurementSet_all_or_nothing
  (timingSet : list object) (versionString u : string) (w : world) :
  let r := performMeasurementSet Math_pow browser opts timingSet versionString u w in
  (exists timingSet' values mean deviation w',
     r = (Normal (timingSet', values), w') /\
     values
     = map (fun timings => calculateMetric timings (metric opts)) timingSet' /\
     List.length timingSet'
     = (List.length timingSet + Z.to_nat (repeat opts))%nat /\
     timingSet' <> [] /\
     calculateMean (map ToNumber values) (node w) = (Normal mean, node w) /\
     calculateStandardDeviation Math_pow (map ToNumber values) (Some mean) (node w)
     = (Normal deviation, node w) /\
     node w'
     = printed (node w)
         (summary_lines Math_pow opts (speaks (options (node w))) versionString u
            values mean deviation)) \/
  (aborted w r /\ stdout (node (snd r)) = stdout (node w)).
Proof.
  intros r.
  destruct (performMeasurementSet_outcome timingSet versionString u w)
    as [Hdone | Hab].
  - left. exact Hdone.
  - right. split; [exact Hab |]. now apply aborted_stdout.
Qed.

Lemma after_nil w : after w [] = w.
Proof. destruct w; unfold after; simpl. now rewrite app_nil_r. Qed.

Lemma throwaway_loads_reliable count u w :
  reliable browser opts ->
  throwaway_loads browser count u w
  = (Normal tt, after w (List.repeat (Visit u false) count)).
Proof.
  intros Hrel. revert w; induction count as [| count IH]; intros w.
  - simpl. now rewrite after_nil.
  - rewrite throwaway_loads_step.
    destruct (Hrel (history w) u) as (page & result & -> & _).
    rewrite IH, after_after. reflexivity.
Qed.

Lemma flat_map_seq_shift {A} (f : nat -> list A) start len :
  flat_map f (seq (S start) len) = flat_map (fun k => f (S k)) (seq start len).
Proof.
  rewrite <- seq_shift. induction (seq start len) as [| k l IH]; simpl;
    [reflexivity | now rewrite IH].
Qed.

Lemma measurements_reliable count i u ts w :
  reliable browser opts ->
  exists ts',
    measurements browser opts count i u ts w
    = (Normal ts',
       after w (flat_map (fun k => [Visit u true; BarUpdate (i + Z.of_nat k)])
                  (seq 1 count))) /\
    List.length ts' = (List.length ts + count)%nat.
Proof.
  intros Hrel. revert i ts w; induction count as [| count IH]; intros i ts w.
  - exists ts. simpl. rewrite after_nil. split; [reflexivity | lia].
  - rewrite measurements_step.
    destruct (Hrel (history w) u) as (page & result & -> & Hitem).
    assert (Hnext : forall timings, exists ts',
      measurements browser opts count (i + 1) u (ts ++ [timings])
        (after w [Visit u true; BarUpdate (i + 1)])
      = (Normal ts',
         after w (flat_map (fun k => [Visit u true; BarUpdate (i + Z.of_nat k)])
                    (seq 1 (S count)))) /\
      List.length ts' = (List.length ts + S count)%nat).
    { intros timings.
      destruct (IH (i + 1)%Z (ts ++ [timings])
                  (after w [Visit u true; BarUpdate (i + 1)]))
        as (ts' & Hrun & Hlen).
      exists ts'. split.
      - rewrite Hrun, after_after. do 2 f_equal.
        change (seq 1 (S count)) with (1%nat :: seq 2 count).
        simpl flat_map.
        rewrite (flat_map_seq_shift
                   (fun k => [Visit u true; BarUpdate (i + Z.of_nat k)]) 1 count).
        cbn [app]. do 2 f_equal.
        apply flat_map_ext. intros k. do 3 f_equal. lia.
      - rewrite Hlen, length_app. simpl. lia. }
    destruct (lighthouse opts); [| apply Hnext].
    destruct (Hitem eq_refl) as [item ->]. apply Hnext.
Qed.

(** A measurement set on a browser that never fails. *)
Lemma performMeasurementSet_reliable (versionString u : string) (w : world) :
  reliable browser opts ->
  exists c lines,
    performMeasurementSet Math_pow browser opts [] versionString u w
    = (c, {| node := printed (node w) lines;
             history := history w ++ set_events opts u |}) /\
    ((0 < repeat opts)%Z ->
     exists timingSet values,
       c = Normal (timingSet, values) /\
       values <> [] /\
       List.length values = Z.to_nat (repeat opts)) /\
    ((repeat opts <= 0)%Z ->
     c = Throw "TypeError: Reduce of empty array with no initial value" /\
     lines = []).
Proof.
  intros Hrel.
  pose proof (throwaway_loads_reliable (Z.to_nat (throwaway opts)) u
                (after w [BarStart (repeat opts) 0]) Hrel) as Hrun.
  destruct (measurements_reliable (Z.to_nat (repeat opts)) 0 u []
              (after (after w [BarStart (repeat opts) 0])
                 (List.repeat (Visit u false) (Z.to_nat (throwaway opts))))
              Hrel) as (ts' & Hrun2 & Hlen).
  destruct (performMeasurementSet_after_loops [] ts' versionString u w _ _
              Hrun Hrun2) as (c & lines & Heq & Hempty & Hfull).
  exists c, lines. split; [| split].
  - rewrite Heq. f_equal. rewrite !after_after. unfold after, set_events.
    simpl node. simpl history. f_equal.
    rewrite <- app_assoc. f_equal. rewrite <- app_comm_cons. f_equal.
    now rewrite <- app_assoc.
  - intros Hpos. destruct ts' as [| t ts'']; [simpl in Hlen; lia |].
    destruct Hfull as (-> & _); [discriminate |].
    do 2 eexists. split; [reflexivity |]. split; [discriminate |].
    rewrite length_map. exact Hlen.
  - intros Hzero. apply Hempty. destruct ts' as [| t ts'']; [reflexivity |].
    simpl in Hlen. lia.
Qed.

(** X20: On a browser that never fails, a measurement set that starts from an
    empty array takes these steps, in this order: the bar starts, the page is
    loaded [throwaway] times without measuring, then [repeat] times with a
    measurement, each followed by an update of the bar to 1, 2, ...,
    [repeat], and the bar stops.  With [repeat] at least 1 it returns
    [repeat] values; with [repeat] at most 0 it makes the throwaway visits
    all the same and then throws the TypeError of [calculateMean] on an empty
    array, having printed nothing. *)
Theorem measurement_set_history (versionString u : string) (w : world) :
  reliable browser opts ->
  let r := performMeasurementSet Math_pow browser opts [] versionString u w in
  history (snd r) = history w ++ set_events opts u /\
  ((0 < repeat opts)%Z ->
   exists timingSet values,
     fst r = Normal (timingSet, values) /\
     List.length values = Z.to_nat (repeat opts)) /\
  ((repeat opts <= 0)%Z ->
   fst r = Throw "TypeError: Reduce of empty array with no initial value" /\
   node (snd r) = node w).
Proof.
  intros Hrel r. subst r.
  destruct (performMeasurementSet_reliable versionString u w Hrel)
    as (c & lines & -> & Hpos & Hzero).
  simpl fst. simpl snd. split; [reflexivity |]. split.
  - intros H. destruct (Hpos H) as (ts & values & -> & _ & Hlen).
    now exists ts, values.
  - intros H. destruct (Hzero H) as [-> ->]. split; [reflexivity |].
    simpl. apply printed_nil.
Qed.

End ToolFacts.

Lemma measurement_set_history_witness :
  reliable (steady_browser (100%float)) (default_options "http://a.test" None) /\
  history (snd (performMeasurementSet pow_by_product (steady_browser (100%float))
                  (default_options "http://a.test" None) [] "old"
                  "http://a.test" boot))
  = history boot ++ set_events (default_options "http://a.test" None)
                      "http://a.test".
Proof.
  assert (H : reliable (steady_browser (100%float))
                (default_options "http://a.test" None)).
  { intros h u. exists (steady_page (100%float)), no_audit.
    split; [reflexivity | discriminate]. }
  split; [exact H |].
  exact (proj1 (measurement_set_history pow_by_product (steady_browser (100%float))
                  (default_options "http://a.test" None) "old"
                  "http://a.test" boot H)).
Defined.


(** ** The main file: the whole run *)

Lemma chooseHypothesis_run ttest o0 orest n0 nrest s :
  let oldSet := o0 :: orest in
  let newSet := n0 :: nrest in
  let oldMean :=
    div (fold_left (fun sum value => add sum value) orest o0)
      (length_of oldSet) in
  let newMean :=
    div (fold_left (fun sum value => add sum value) nrest n0)
      (length_of newSet) in
  chooseHypothesis ttest oldSet newSet s =
    if lt oldMean newMean then
      (Normal {| oldMean := oldMean; newMean := newMean; direction := -1;
                 pValue := ttest oldSet newSet Less |},
       logged s (oldSet, newSet, Less))
    else if gt oldMean newMean then
      (Normal {| oldMean := oldMean; newMean := newMean; direction := 1;
                 pValue := ttest oldSet newSet Greater |},
       logged s (oldSet, newSet, Greater))
    else
      (Normal {| oldMean := oldMean; newMean := newMean; direction := 0;
                 pValue := 0%float |}, s).
Proof.
  intros oldSet newSet oldMean' newMean'.
  subst oldSet newSet oldMean' newMean'. unfold chooseHypothesis.
  unfold bind at 1. rewrite calculateMean_run. cbv iota beta.
  unfold bind at 1. rewrite calculateMean_run. cbv iota beta.
  match goal with
  | |- context [lt ?a ?b] => destruct (lt a b); [reflexivity |];
                              destruct (gt a b); reflexivity
  end.
Qed.

Lemma chooseHypothesis_cases ttest (oldSet newSet : list number) s :
  ((oldSet = [] \/ newSet = []) /\
   chooseHypothesis ttest oldSet newSet s
   = (Throw "TypeError: Reduce of empty array with no initial value", s)) \/
  (oldSet <> [] /\ newSet <> [] /\
   exists v,
     chooseHypothesis ttest oldSet newSet s = (Normal v, s) \/
     exists alt,
       chooseHypothesis ttest oldSet newSet s
       = (Normal v, logged s (oldSet, newSet, alt))).
Proof.
  destruct oldSet as [| o0 orest]; [left; split; [now left | reflexivity] |].
  destruct newSet as [| n0 nrest]; [left; split; [now right | reflexivity] |].
  right. split; [discriminate |]. split; [discriminate |].
  rewrite chooseHypothesis_run.
  match goal with
  | |- context [lt ?a ?b] => destruct (lt a b); [| destruct (gt a b)]
  end; eexists.
  - right. exists Less. reflexivity.
  - right. exists Greater. reflexivity.
  - left. reflexivity.
Qed.

Lemma analyseResults_ends Math_pow ttest (oldSet newSet : list number) s :
  let r := analyseResults Math_pow ttest oldSet newSet s in
  match fst r with
  | Normal _ => stderr (snd r) = stderr s /\ oldSet <> [] /\ newSet <> []
  | Exit status =>
      status = (-1)%Z /\
      stderr (snd r) = stderr s ++ [[Text "Error: p-value is NaN."]] /\
      oldSet <> [] /\ newSet <> []
  | Throw _ => snd r = s /\ (oldSet = [] \/ newSet = [])
  end.
Proof.
  intros r. subst r. rewrite analyseResults_unfold.
  destruct (chooseHypothesis_cases ttest oldSet newSet s)
    as [[Hempty ->] | (Ho & Hn & v & [-> | [alt ->]])];
    [simpl; easy | |];
    rewrite report_lines; destruct (Number_isNaN (pValue v)); simpl; easy.
Qed.

Lemma task_bind_normal {A B} (m : task A) (k : A -> task B) w a w1 :
  m w = (Normal a, w1) -> task_bind m k w = k a w1.
Proof. intros H. unfold task_bind. now rewrite H. Qed.

Lemma ended_bind {A B} (returns : Prop) (m : task A) (k : A -> task B) w :
  ended True w (m w) ->
  (forall a w1, m w = (Normal a, w1) -> ended returns w1 (k a w1)) ->
  ended returns w (task_bind m k w).
Proof.
  intros Hm Hk. unfold task_bind.
  destruct (m w) as [[a | status | error] w1] eqn:Hrun.
  - unfold ended in Hm. simpl in Hm. destruct Hm as [_ Herr].
    specialize (Hk a w1 eq_refl). unfold ended in *.
    destruct (k a w1) as [[b | status | error] w2]; simpl in *;
      rewrite <- Herr; exact Hk.
  - exact Hm.
  - exact Hm.
Qed.

Lemma ended_console_log l w : ended True w (lift (console_log l) w).
Proof. unfold ended; simpl; easy. Qed.

Lemma ended_happens e w : ended True w (happens e w).
Proof. unfold ended; simpl; easy. Qed.

Lemma ended_ret {A} (a : A) w : ended True w (task_ret a w).
Proof. unfold ended; simpl; easy. Qed.

Section MainFacts.

Variable Math_pow : number -> number -> number.

Variable browser : list event -> string -> visit.
Variable ttest : list number -> list number -> alternative -> number.
Variable opts : argv.

Lemma ended_performMeasurementSet versionString u w :
  ended True w (performMeasurementSet Math_pow browser opts [] versionString u w).
Proof.
  destruct (performMeasurementSet_outcome Math_pow browser opts [] versionString u w)
    as [(ts & values & mean & deviation & w' & -> & _ & _ & _ & _ & _ & Hnode)
       | Hab].
  - unfold ended. simpl. now rewrite Hnode.
  - unfold aborted in Hab. unfold ended.
    destruct (performMeasurementSet Math_pow browser opts [] versionString u w)
      as [[a | status | error] w']; simpl in *.
    + destruct Hab.
    + destruct Hab as (-> & e & ->). right. split; [reflexivity |].
      exists (fetch_error_lines e). split; [discriminate | reflexivity].
    + now rewrite Hab.
Qed.

Lemma ended_analyseResults (oldSet newSet : list number) w :
  ended True w (lift (analyseResults Math_pow ttest oldSet newSet) w).
Proof.
  pose proof (analyseResults_ends Math_pow ttest oldSet newSet (node w)) as H.
  cbv zeta in H. unfold ended, lift.
  destruct (analyseResults Math_pow ttest oldSet newSet (node w))
    as [[a | status | error] p]; simpl in *.
  - easy.
  - destruct H as (-> & -> & _). right. split; [reflexivity |].
    eexists. split; [| reflexivity]. discriminate.
  - destruct H as [-> _]. reflexivity.
Qed.

Lemma ended_prompt (l : line) w :
  ended True w
    ((if negb (given (url2 opts))
      then task_bind (lift (console_log l)) (fun _ => waitForInput)
      else task_ret tt) w).
Proof. destruct (given (url2 opts)); unfold ended; simpl; easy. Qed.

(** X23: The main method never returns: it ends the process, or an exception
    escapes it.  The status is 0 or -1.  It is -1 only after a message was
    written to the standard error (the metric needs Lighthouse, a page could
    not be fetched, the p-value is NaN); with status 0, and when an
    exception escapes, the tool wrote nothing there. *)
Theorem main_exit_status (w : world) :
  let r := main Math_pow browser ttest opts w in
  match fst r with
  | Normal _ => False
  | Exit status =>
      (status = 0%Z /\ stderr (node (snd r)) = stderr (node w)) \/
      (status = (-1)%Z /\
       exists lines,
         lines <> [] /\ stderr (node (snd r)) = stderr (node w) ++ lines)
  | Throw _ => stderr (node (snd r)) = stderr (node w)
  end.
Proof.
  intros r. subst r.
  assert (H : ended False w (main Math_pow browser ttest opts w)).
  { unfold main. apply ended_bind.
    { destruct (negb (lighthouse opts)
                && (String.eqb (metric opts) "tti"
                    || String.eqb (metric opts) "tbt")).
      - unfold ended. simpl. right. split; [reflexivity |].
        eexists. split; [| reflexivity]. discriminate.
      - apply ended_ret. }
    intros _ w1 _. apply ended_bind; [unfold ended; simpl; easy |].
    intros _ w2 _. apply ended_bind; [apply ended_prompt |].
    intros _ w3 _. apply ended_bind; [apply ended_performMeasurementSet |].
    intros old w4 _. apply ended_bind; [apply ended_console_log |].
    intros _ w5 _. apply ended_bind; [apply ended_prompt |].
    intros _ w6 _. apply ended_bind; [apply ended_performMeasurementSet |].
    intros new w7 _. apply ended_bind; [apply ended_console_log |].
    intros _ w8 _. apply ended_bind; [apply ended_analyseResults |].
    intros _ w9 _. unfold ended. simpl. left. easy. }
  unfold ended in H.
  destruct (main Math_pow browser ttest opts w) as [[a | status | error] w'];
    simpl in *; easy.
Qed.

(** X24: When the metric needs Lighthouse and Lighthouse is off, the main method
    ends at once with status -1 and one line on the standard error: no page
    is visited, nothing is asked and nothing is printed. *)
Theorem main_refuses_metric (w : world) :
  needs_lighthouse opts = true ->
  main Math_pow browser ttest opts w
  = (Exit (-1),
     {| node :=
          complained (node w)
            [[Text "Error: metric only measurable via Lighthouse. Use the `-l` option."]];
        history := history w |}).
Proof.
  intros Hneeds. unfold main, needs_lighthouse in *.
  unfold task_bind at 1. rewrite Hneeds. reflexivity.
Qed.

Lemma prompt_run (l : line) w :
  (if negb (given (url2 opts))
   then task_bind (lift (console_log l)) (fun _ => waitForInput)
   else task_ret tt) w
  = (Normal tt,
     {| node := if given (url2 opts) then node w else printed (node w) [l];
        history := history w ++ prompt_events opts |}).
Proof.
  unfold prompt_events. destruct (given (url2 opts)); simpl.
  - unfold task_ret. destruct w; simpl. now rewrite app_nil_r.
  - reflexivity.
Qed.

(** X25: On a browser that never fails, with a metric that can be measured and
    at least one measurement to take, the main method works in this order:
    the question for the old version when only one URL was given, the whole
    measurement set of the old version, the question for the new version,
    the whole measurement set of the new version; so every visit for the
    old version comes before every visit for the new one, and each set
    visits its page [throwaway] + [repeat] times.  The process then ends
    with status 0, or with -1 when the p-value is NaN. *)
Theorem main_history (w : world) :
  reliable browser opts ->
  needs_lighthouse opts = false ->
  (0 < repeat opts)%Z ->
  let r := main Math_pow browser ttest opts w in
  history (snd r)
  = history w ++ prompt_events opts ++ set_events opts (url opts)
    ++ prompt_events opts ++ set_events opts (new_url opts) /\
  (fst r = Exit 0 \/ fst r = Exit (-1)).
Proof.
  intros Hrel Hneeds Hpos r.
  assert (Hr : r = main Math_pow browser ttest opts w) by reflexivity.
  clearbody r. unfold main in Hr.
  change (negb (lighthouse opts)
          && (String.eqb (metric opts) "tti" || String.eqb (metric opts) "tbt"))
    with (needs_lighthouse opts) in Hr.
  rewrite Hneeds in Hr.
  rewrite (task_bind_normal _ _ w tt w) in Hr by reflexivity.
  unfold task_bind at 1 in Hr. unfold lift at 1, setOutputOptions at 1 in Hr.
  cbv beta iota in Hr.
  match type of Hr with
  | context [task_bind _ _ ?w1] => set (wa := w1) in Hr
  end.
  unfold task_bind at 1 in Hr. rewrite prompt_run in Hr. cbv beta iota in Hr.
  match type of Hr with
  | context [task_bind _ _ ?w1] => set (wb := w1) in Hr
  end.
  destruct (performMeasurementSet_reliable Math_pow browser opts "old" (url opts) wb Hrel)
    as (c1 & lines1 & Hold & Hfull1 & _).
  destruct (Hfull1 Hpos) as (ts1 & values1 & -> & Hne1 & _).
  rewrite (task_bind_normal _ _ _ _ _ Hold) in Hr. cbv zeta in Hr.
  unfold task_bind at 1 in Hr. unfold lift at 1, console_log at 1 in Hr.
  cbv beta iota in Hr.
  unfold task_bind at 1 in Hr. rewrite prompt_run in Hr. cbv beta iota in Hr.
  match type of Hr with
  | context [task_bind _ _ ?w1] => set (wc := w1) in Hr
  end.
  fold (new_url opts) in Hr.
  destruct (performMeasurementSet_reliable Math_pow browser opts "new" (new_url opts)
              wc Hrel) as (c2 & lines2 & Hnew & Hfull2 & _).
  destruct (Hfull2 Hpos) as (ts2 & values2 & -> & Hne2 & _).
  rewrite (task_bind_normal _ _ _ _ _ Hnew) in Hr.
  unfold task_bind at 1 in Hr. unfold lift at 1, console_log at 1 in Hr.
  cbv beta iota in Hr.
  match type of Hr with
  | context [task_bind _ _ ?w1] => set (wd := w1) in Hr
  end.
  assert (Hhist : history wd
                  = history w ++ prompt_events opts
                    ++ set_events opts (url opts)
                    ++ prompt_events opts ++ set_events opts (new_url opts)).
  { subst wd wc wb wa. cbn [history]. now rewrite <- !app_assoc. }
  pose proof (analyseResults_ends Math_pow ttest (map ToNumber (snd (ts1, values1)))
                (map ToNumber (snd (ts2, values2))) (node wd)) as Hends.
  cbv zeta in Hends.
  unfold task_bind, lift in Hr.
  destruct (analyseResults Math_pow ttest (map ToNumber (snd (ts1, values1)))
              (map ToNumber (snd (ts2, values2))) (node wd))
    as [[a | status | error] p]; simpl in Hends; cbn [node history] in Hr;
    subst r; cbn [fst snd history].
  - split; [exact Hhist | now left].
  - destruct Hends as (-> & _). split; [exact Hhist | now right].
  - destruct Hends as (_ & [Hempty | Hempty]); exfalso;
      [destruct values1 | destruct values2]; easy.
Qed.

End MainFacts.

Lemma main_refuses_metric_witness :
  needs_lighthouse tti_directly = true /\
  main pow_by_product offline_browser (fixed_ttest NaN) tti_directly boot
  = (Exit (-1),
     {| node :=
          complained (node boot)
            [[Text "Error: metric only measurable via Lighthouse. Use the `-l` option."]];
        history := history boot |}).
Proof.
  split; [reflexivity |].
  exact (main_refuses_metric pow_by_product offline_browser (fixed_ttest NaN) tti_directly
           boot eq_refl).
Defined.

Lemma reliable_steady t u u2 :
  reliable (steady_browser t) (default_options u u2).
Proof.
  intros h v. exists (steady_page t), no_audit.
  split; [reflexivity | discriminate].
Qed.

Lemma main_history_witness :
  reliable (steady_browser (100%float))
    (default_options "http://a.test" (Some "http://b.test"%string)) /\
  needs_lighthouse
    (default_options "http://a.test" (Some "http://b.test"%string)) = false /\
  (0 < repeat (default_options "http://a.test" (Some "http://b.test"%string)))%Z /\
  history (snd (main pow_by_product (steady_browser (100%float)) (fixed_ttest NaN)
                  (default_options "http://a.test"
                     (Some "http://b.test"%string)) boot))
  = history boot
    ++ prompt_events
         (default_options "http://a.test" (Some "http://b.test"%string))
    ++ set_events
         (default_options "http://a.test" (Some "http://b.test"%string))
         "http://a.test"
    ++ prompt_events
         (default_options "http://a.test" (Some "http://b.test"%string))
    ++ set_events
         (default_options "http://a.test" (Some "http://b.test"%string))
         "http://b.test".
Proof.
  assert (H1 := reliable_steady (100%float) "http://a.test"
                  (Some "http://b.test"%string)).
  assert (H2 : needs_lighthouse
                 (default_options "http://a.test" (Some "http://b.test"%string))
               = false) by reflexivity.
  assert (H3 : (0 < repeat (default_options "http://a.test"
                              (Some "http://b.test"%string)))%Z)
    by (simpl; lia).
  repeat (split; [assumption |]).
  exact (proj1 (main_history pow_by_product (steady_browser (100%float)) (fixed_ttest NaN)
                  (default_options "http://a.test"
                     (Some "http://b.test"%string)) boot H1 H2 H3)).
Defined.

(** ** A page that cannot be fetched *)

Section FetchFailure.

Variable Math_pow : number -> number -> number.

Variable browser : list event -> string -> visit.
Variable opts : argv.

Lemma throwaway_loads_exit count u w status w' :
  throwaway_loads browser count u w = (Exit status, w') ->
  status = (-1)%Z /\
  exists h e,
    history w' = h ++ [Visit u false] /\
    browser h u = Unreachable e /\
    node w' = complained (node w) (fetch_error_lines e).
Proof.
  revert w; induction count as [| count IH]; intros w; [discriminate |].
  rewrite throwaway_loads_step.
  destruct (browser (history w) u) as [e | page result] eqn:Hvisit.
  - intros H; inversion H; subst. split; [reflexivity |].
    exists (history w), e. easy.
  - intros H. apply IH in H. exact H.
Qed.

Lemma measurements_exit count i u ts w status w' :
  measurements browser opts count i u ts w = (Exit status, w') ->
  status = (-1)%Z /\
  exists h e,
    history w' = h ++ [Visit u true] /\
    browser h u = Unreachable e /\
    node w' = complained (node w) (fetch_error_lines e).
Proof.
  revert i ts w; induction count as [| count IH]; intros i ts w;
    [discriminate |].
  rewrite measurements_step.
  destruct (browser (history w) u) as [e | page result] eqn:Hvisit.
  - intros H; inversion H; subst. split; [reflexivity |].
    exists (history w), e. easy.
  - destruct (lighthouse opts);
      [destruct (find has_interactive (metrics_items result));
         [| discriminate] |];
      intros H; apply IH in H; exact H.
Qed.

(** X21: A measurement set stops at the first page that cannot be fetched: when
    it ends the process, the status is -1, the last thing that happened is
    the visit that failed, and the four lines on the standard error carry
    the error of that visit; no page is visited after it and no summary is
    printed. *)
Theorem fetch_failure_stops
  (timingSet : list object) (versionString u : string) (w w' : world)
  (status : Z) :
  performMeasurementSet Math_pow browser opts timingSet versionString u w
  = (Exit status, w') ->
  status = (-1)%Z /\
  exists h e measured,
    history w' = h ++ [Visit u measured] /\
    browser h u = Unreachable e /\
    node w' = complained (node w) (fetch_error_lines e).
Proof.
  intros Hrun.
  destruct (throwaway_loads browser (Z.to_nat (throwaway opts)) u
              (after w [BarStart (repeat opts) 0]))
    as [[[] | st1 | er1] w1] eqn:Hthrow.
  - destruct (measurements browser opts (Z.to_nat (repeat opts)) 0 u
                timingSet w1) as [[ts' | st2 | er2] w2] eqn:Hmeasure.
    + destruct (performMeasurementSet_after_loops Math_pow browser opts timingSet ts'
                  versionString u w w1 w2 Hthrow Hmeasure)
        as (c & lines & Heq & Hempty & Hfull).
      rewrite Heq in Hrun. exfalso.
      destruct ts' as [| t ts''].
      * destruct (Hempty eq_refl) as [-> _]. discriminate.
      * destruct Hfull as [-> _]; [discriminate |]. discriminate.
    + assert (Heq : performMeasurementSet Math_pow browser opts timingSet versionString
                      u w = (Exit st2, w2)).
      { unfold performMeasurementSet.
        unfold task_bind at 1. unfold happens at 1. cbv beta iota.
        change {| node := node w;
                  history := history w ++ [BarStart (repeat opts) 0] |}
          with (after w [BarStart (repeat opts) 0]).
        unfold task_bind at 1. rewrite Hthrow. cbv beta iota.
        unfold task_bind at 1. now rewrite Hmeasure. }
      rewrite Heq in Hrun. inversion Hrun; subst.
      destruct (measurements_exit _ _ _ _ _ _ _ Hmeasure)
        as (-> & h & e & Hh & Hb & Hn).
      destruct (throwaway_loads_outcome browser (Z.to_nat (throwaway opts)) u
                  (after w [BarStart (repeat opts) 0]))
        as [(w1' & Hrun1 & Hnode1) | Hab].
      * rewrite Hthrow in Hrun1. inversion Hrun1; subst w1'.
        split; [reflexivity |]. exists h, e, true.
        rewrite Hn, Hnode1. easy.
      * rewrite Hthrow in Hab. destruct Hab.
    + assert (Heq : performMeasurementSet Math_pow browser opts timingSet versionString
                      u w = (Throw er2, w2)).
      { unfold performMeasurementSet.
        unfold task_bind at 1. unfold happens at 1. cbv beta iota.
        change {| node := node w;
                  history := history w ++ [BarStart (repeat opts) 0] |}
          with (after w [BarStart (repeat opts) 0]).
        unfold task_bind at 1. rewrite Hthrow. cbv beta iota.
        unfold task_bind at 1. now rewrite Hmeasure. }
      rewrite Heq in Hrun. discriminate.
  - assert (Heq : performMeasurementSet Math_pow browser opts timingSet versionString
                    u w = (Exit st1, w1)).
    { unfold performMeasurementSet.
      unfold task_bind at 1. unfold happens at 1. cbv beta iota.
      change {| node := node w;
                history := history w ++ [BarStart (repeat opts) 0] |}
        with (after w [BarStart (repeat opts) 0]).
      unfold task_bind at 1. now rewrite Hthrow. }
    rewrite Heq in Hrun. inversion Hrun; subst.
    destruct (throwaway_loads_exit _ _ _ _ _ Hthrow)
      as (-> & h & e & Hh & Hb & Hn).
    split; [reflexivity |]. now exists h, e, false.
  - assert (Heq : performMeasurementSet Math_pow browser opts timingSet versionString
                    u w = (Throw er1, w1)).
    { unfold performMeasurementSet.
      unfold task_bind at 1. unfold happens at 1. cbv beta iota.
      change {| node := node w;
                history := history w ++ [BarStart (repeat opts) 0] |}
        with (after w [BarStart (repeat opts) 0]).
      unfold task_bind at 1. now rewrite Hthrow. }
    rewrite Heq in Hrun. discriminate.
Qed.

End FetchFailure.

Lemma fetch_failure_stops_witness :
  performMeasurementSet pow_by_product offline_browser (default_options "http://a.test" None)
    [] "old" "http://a.test" boot
  = (Exit (-1),
     {| node := complained (node boot)
                  (fetch_error_lines "net::ERR_INTERNET_DISCONNECTED");
        history := [BarStart 10 0; Visit "http://a.test" false] |}) /\
  exists h e measured,
    [BarStart 10 0; Visit "http://a.test" false]
    = h ++ [Visit "http://a.test" measured] /\
    offline_browser h "http://a.test" = Unreachable e /\
    complained (node boot) (fetch_error_lines "net::ERR_INTERNET_DISCONNECTED")
    = complained (node boot) (fetch_error_lines e).
Proof.
  assert (H : performMeasurementSet pow_by_product offline_browser
                (default_options "http://a.test" None) [] "old"
                "http://a.test" boot
              = (Exit (-1),
                 {| node := complained (node boot)
                              (fetch_error_lines "net::ERR_INTERNET_DISCONNECTED");
                    history := [BarStart 10 0; Visit "http://a.test" false] |}))
    by reflexivity.
  split; [exact H |].
  exact (proj2 (fetch_failure_stops pow_by_product offline_browser
                  (default_options "http://a.test" None) [] "old"
                  "http://a.test" boot _ _ H)).
Defined.
